(** * Mock CCTV camera server ([cctvserver.py]): model and properties

    The server is a Flask application with one module-level object,
    [camera = SimpleCCTVCamera()], and three views: [home], [snapshot]
    and [status].  The Python code is embedded as programs of a small
    reader/state/exception monad:

    - the state is what survives a request: the camera object, the hidden
      state of the [random] module and the wall clock;
    - the reader part is the health of the external libraries (Pillow,
      Flask) while one request runs: which of their entry points raise;
    - an exception leaves the state as it was when it was raised, as in
      Python (nothing is rolled back).

    Pillow's pixel work and the JPEG encoder are outside the program: an
    image is represented by the drawing calls made on it, in order. *)

From Stdlib Require Import ZArith String Ascii List DecimalString Lia Bool.
From Stdlib Require DecimalPos DecimalZ.
From stdpp Require Import base list.
Import ListNotations.

#[local] Open Scope Z_scope.
#[local] Open Scope string_scope.

(** ** Python values used by the program *)

(** [str(n)] for a Python [int]. *)
Definition str_of_int (n : Z) : string := NilZero.string_of_int (Z.to_int n).

(** [range(start, stop, step)] for a positive [step]. *)
Definition range (start stop step : Z) : list Z :=
  map (fun i : nat => start + Z.of_nat i * step)
      (seq 0 (Z.to_nat ((stop - start + step - 1) / step))).

(** Zero padding of the [%02d] / [%04d] / [%06d] kind. *)
Fixpoint zeros (n : nat) : string :=
  match n with
  | O => EmptyString
  | S n' => String "0" (zeros n')
  end.

Definition zfill (width : nat) (n : Z) : string :=
  let s := str_of_int n in
  zeros (width - String.length s) ++ s.

(** A naive [datetime.datetime] value. *)
Record datetime : Type := mk_datetime {
  year : Z; month : Z; day : Z;
  hour : Z; minute : Z; second : Z;
  microsecond : Z
}.

(** [dt.strftime("%Y-%m-%d %H:%M:%S")]. *)
Definition strftime_Ymd_HMS (dt : datetime) : string :=
  zfill 4 (year dt) ++ "-" ++ zfill 2 (month dt) ++ "-" ++ zfill 2 (day dt)
  ++ " " ++ zfill 2 (hour dt) ++ ":" ++ zfill 2 (minute dt) ++ ":" ++ zfill 2 (second dt).

(** [dt.isoformat()]: the fraction is printed only when it is not zero. *)
Definition isoformat (dt : datetime) : string :=
  zfill 4 (year dt) ++ "-" ++ zfill 2 (month dt) ++ "-" ++ zfill 2 (day dt)
  ++ "T" ++ zfill 2 (hour dt) ++ ":" ++ zfill 2 (minute dt) ++ ":" ++ zfill 2 (second dt)
  ++ (if Z.eqb (microsecond dt) 0 then EmptyString else "." ++ zfill 6 (microsecond dt)).

(** ** Images as the drawing calls made on them *)

Inductive Color : Type :=
  | Named (name : string)
  | RGB (r g b : Z).

Inductive Font : Type := DefaultFont.

Inductive DrawOp : Type :=
  | Line (xy : list (Z * Z)) (fill : Color) (width : Z)
  | Rectangle (box : Z * Z * Z * Z) (fill : Color) (outline : Color)
  | Text (xy : Z * Z) (text : string) (fill : Color) (font : option Font)
  | Ellipse (box : Z * Z * Z * Z) (fill : Color).

Record Image : Type := mk_Image {
  mode : string;
  size : Z * Z;
  background : Color;
  drawn : list DrawOp
}.

(** The content of an [io.BytesIO] buffer: nothing, or one encoded image. *)
Inductive Bytes : Type :=
  | NoBytes
  | Encoded (format : string) (img : Image).

Inductive Position : Type := AtStart | AtEnd.

Record BytesIO : Type := mk_BytesIO {
  getvalue : Bytes;
  tell : Position
}.

(** [buf.read()]: what is left after the current position. *)
Definition read (buf : BytesIO) : Bytes :=
  match tell buf with
  | AtStart => getvalue buf
  | AtEnd => NoBytes
  end.

(** ** The world around the program *)

(** The entry points of Pillow and Flask that the program calls. *)
Inductive LibCall : Type :=
  | Image_new
  | ImageDraw_Draw
  | draw_line
  | draw_rectangle
  | ImageFont_load_default
  | draw_text (font : option Font)
  | draw_ellipse
  | image_save
  | send_file.

(** Which library calls raise while the current request runs. *)
Definition Env : Type := LibCall -> bool.

(** Nothing raises. *)
Definition healthy : Env := fun _ => false.

Inductive Exception : Type :=
  | LibraryError (c : LibCall).

(** [class SimpleCCTVCamera]: its only attribute. *)
Record SimpleCCTVCamera : Type := mk_camera {
  frame_count : Z
}.

(** [SimpleCCTVCamera.__init__]. *)
Definition __init__ : SimpleCCTVCamera := {| frame_count := 0 |}.

(** The hidden generator of the [random] module: an endless supply of raw
    draws and the number already consumed. *)
Record RandomSource : Type := mk_random {
  tape : nat -> Z;
  consumed : nat
}.

(** The wall clock: the reading that each successive [datetime.now()] gets. *)
Record Clock : Type := mk_clock {
  readings : nat -> datetime;
  asked : nat
}.

Record State : Type := mk_State {
  camera : SimpleCCTVCamera;
  random_state : RandomSource;
  wall_clock : Clock
}.

(** ** The monad *)

Inductive Outcome (A : Type) : Type :=
  | Return (a : A)
  | Raised (e : Exception).
Arguments Return {A} a.
Arguments Raised {A} e.

Definition M (A : Type) : Type := Env -> State -> Outcome A * State.

Definition ret {A} (a : A) : M A := fun _ st => (Return a, st).

Definition bind {A B} (m : M A) (k : A -> M B) : M B :=
  fun env st =>
    match m env st with
    | (Return a, st') => k a env st'
    | (Raised e, st') => (Raised e, st')
    end.

Declare Scope py_scope.
Delimit Scope py_scope with py.
Notation "x <- m ;; k" := (bind m (fun x => k))
  (at level 100, m at next level, right associativity) : py_scope.
Notation "m ;;; k" := (bind m (fun _ => k))
  (at level 100, right associativity) : py_scope.
#[local] Open Scope py_scope.

(** [try: body / except: handler] with a bare [except]. *)
Definition try_except {A} (body handler : M A) : M A :=
  fun env st =>
    match body env st with
    | (Return a, st') => (Return a, st')
    | (Raised _, st') => handler env st'
    end.

(** [for x in xs: acc = body(x, acc)]. *)
Fixpoint for_in {A B} (xs : list A) (acc : B) (body : A -> B -> M B) : M B :=
  match xs with
  | [] => ret acc
  | x :: xs' => acc' <- body x acc ;; for_in xs' acc' body
  end.

(** A call into Pillow or Flask: it raises when the environment says so. *)
Definition lib (c : LibCall) : M unit :=
  fun env st => if env c then (Raised (LibraryError c), st) else (Return tt, st).

(** How a raw draw is brought into [a..b]. *)
Definition pick (a b raw : Z) : Z := a + raw mod (b - a + 1).

(** [random.randint(a, b)]: some integer of [a..b], chosen by the next raw
    draw. *)
Definition randint (a b : Z) : M Z :=
  fun _ st =>
    let r := random_state st in
    (Return (pick a b (tape r (consumed r))),
     {| camera := camera st;
        random_state := {| tape := tape r; consumed := S (consumed r) |};
        wall_clock := wall_clock st |}).

(** [datetime.now()]. *)
Definition datetime_now : M datetime :=
  fun _ st =>
    let c := wall_clock st in
    (Return (readings c (asked c)),
     {| camera := camera st;
        random_state := random_state st;
        wall_clock := {| readings := readings c; asked := S (asked c) |} |}).

(** Reading and writing [camera.frame_count] (the [self.frame_count] of the
    method, [self] being the one module-level camera). *)
Definition load_frame_count : M Z :=
  fun _ st => (Return (frame_count (camera st)), st).

Definition store_frame_count (v : Z) : M unit :=
  fun _ st =>
    (Return tt,
     {| camera := {| frame_count := v |};
        random_state := random_state st;
        wall_clock := wall_clock st |}).

(** ** Pillow, as far as the program uses it *)

Definition PIL_Image_new (mode : string) (size : Z * Z) (color : Color) : M Image :=
  lib Image_new ;;;
  ret {| mode := mode; size := size; background := color; drawn := [] |}.

Definition PIL_ImageDraw_Draw (im : Image) : M Image :=
  lib ImageDraw_Draw ;;; ret im.

Definition put (op : DrawOp) (im : Image) : Image :=
  {| mode := mode im; size := size im; background := background im;
     drawn := drawn im ++ [op] |}.

Definition PIL_line (im : Image) (xy : list (Z * Z)) (fill : Color) (width : Z) : M Image :=
  lib draw_line ;;; ret (put (Line xy fill width) im).

Definition PIL_rectangle (im : Image) (box : Z * Z * Z * Z) (fill outline : Color) : M Image :=
  lib draw_rectangle ;;; ret (put (Rectangle box fill outline) im).

Definition PIL_load_default : M Font :=
  lib ImageFont_load_default ;;; ret DefaultFont.

Definition PIL_text (im : Image) (xy : Z * Z) (text : string) (fill : Color)
    (font : option Font) : M Image :=
  lib (draw_text font) ;;; ret (put (Text xy text fill font) im).

Definition PIL_ellipse (im : Image) (box : Z * Z * Z * Z) (fill : Color) : M Image :=
  lib draw_ellipse ;;; ret (put (Ellipse box fill) im).

(** [image.save(buf, format=...)]: the encoding is written, the position is
    left behind it. *)
Definition PIL_save (im : Image) (buf : BytesIO) (format : string) : M BytesIO :=
  lib image_save ;;; ret {| getvalue := Encoded format im; tell := AtEnd |}.

Definition io_BytesIO : BytesIO := {| getvalue := NoBytes; tell := AtStart |}.

Definition seek0 (buf : BytesIO) : BytesIO :=
  {| getvalue := getvalue buf; tell := AtStart |}.

(** ** [SimpleCCTVCamera.create_test_image] *)

Definition create_test_image : M BytesIO :=
  let width := 640 in
  let height := 480 in
  image <- PIL_Image_new "RGB" (width, height) (Named "darkgray") ;;
  draw <- PIL_ImageDraw_Draw image ;;
  (* grid pattern *)
  draw <- for_in (range 0 width 50) draw (fun x draw =>
            PIL_line draw [(x, 0); (x, height)] (Named "gray") 1) ;;
  draw <- for_in (range 0 height 50) draw (fun y draw =>
            PIL_line draw [(0, y); (width, y)] (Named "gray") 1) ;;
  (* random "motion" rectangles *)
  draw <- for_in (range 0 3 1) draw (fun _ draw =>
            x <- randint 0 (width - 100) ;;
            y <- randint 0 (height - 100) ;;
            w <- randint 30 100 ;;
            h <- randint 30 100 ;;
            r <- randint 100 255 ;;
            g <- randint 100 255 ;;
            b <- randint 100 255 ;;
            PIL_rectangle draw (x, y, x + w, y + h) (RGB r g b) (Named "white")) ;;
  (* text overlay *)
  font <- try_except (f <- PIL_load_default ;; ret (Some f)) (ret None) ;;
  draw <- PIL_text draw (10, 10) "MOCK CCTV - CAMERA 01" (Named "lime") font ;;
  now <- datetime_now ;;
  let timestamp := strftime_Ymd_HMS now in
  draw <- PIL_text draw (10, 30) timestamp (Named "lime") font ;;
  (* frame counter: self.frame_count += 1 *)
  n <- load_frame_count ;;
  store_frame_count (n + 1) ;;;
  n <- load_frame_count ;;
  draw <- PIL_text draw (10, 50) ("Frame: " ++ str_of_int n) (Named "lime") font ;;
  (* REC indicator *)
  draw <- PIL_ellipse draw (width - 50, 10, width - 30, 30) (Named "red") ;;
  draw <- PIL_text draw (width - 80, 12) "REC" (Named "white") font ;;
  (* convert to bytes *)
  let img_buffer := io_BytesIO in
  img_buffer <- PIL_save draw img_buffer "JPEG" ;;
  let img_buffer := seek0 img_buffer in
  ret img_buffer.

(** ** Flask, as far as the program uses it *)

Inductive JsonValue : Type :=
  | JStr (s : string)
  | JInt (n : Z).

(** A Python [dict] with string keys, in insertion order. *)
Definition Dict : Type := list (string * JsonValue).

Fixpoint dict_get (d : Dict) (key : string) : option JsonValue :=
  match d with
  | [] => None
  | (k, v) :: d' => if String.eqb k key then Some v else dict_get d' key
  end.

Inductive Body : Type :=
  | HtmlBody (text : string)
  | JsonBody (obj : Dict)
  | RawBody (data : Bytes)
  | ErrorPage.

Record Response : Type := mk_Response {
  status_code : Z;
  mimetype : string;
  body : Body
}.

(** What a view function may return. *)
Inductive ViewResult : Type :=
  | RvStr (s : string)
  | RvDict (d : Dict)
  | RvResponse (r : Response).

(** [flask.send_file(buf, mimetype=...)]: the response carries what the
    buffer yields from its current position. *)
Definition flask_send_file (buf : BytesIO) (mime : string) : M Response :=
  lib send_file ;;;
  ret {| status_code := 200; mimetype := mime; body := RawBody (read buf) |}.

(** Flask's conversion of a view's return value: a [str] is an HTML page, a
    [dict] is passed to [jsonify], a response object is kept. *)
Definition make_response (rv : ViewResult) : Response :=
  match rv with
  | RvStr s => {| status_code := 200; mimetype := "text/html"; body := HtmlBody s |}
  | RvDict d => {| status_code := 200; mimetype := "application/json"; body := JsonBody d |}
  | RvResponse r => r
  end.

(** ** The views *)

Definition dq : string := String "034" EmptyString.
Definition nl : string := String "010" EmptyString.

(** The three pictographs of the page, as their UTF-8 bytes. *)
Definition movie_camera : string :=
  String "240" (String "159" (String "142" (String "165" EmptyString))).
Definition camera_with_flash : string :=
  String "240" (String "159" (String "147" (String "184" EmptyString))).
Definition bar_chart : string :=
  String "240" (String "159" (String "147" (String "138" EmptyString))).

Definition html_lines : list string :=
  [ EmptyString;
    "    <!DOCTYPE html>";
    "    <html>";
    "    <head>";
    "        <title>Mock CCTV Camera</title>";
    "        <style>";
    "            body { ";
    "                font-family: Arial, sans-serif; ";
    "                max-width: 800px; ";
    "                margin: 50px auto; ";
    "                padding: 20px;";
    "                background: #f0f0f0;";
    "            }";
    "            h1 { color: #333; }";
    "            .endpoint { ";
    "                background: white; ";
    "                padding: 15px; ";
    "                margin: 10px 0; ";
    "                border-radius: 5px;";
    "                box-shadow: 0 2px 5px rgba(0,0,0,0.1);";
    "            }";
    "            a { ";
    "                color: #007bff; ";
    "                text-decoration: none; ";
    "                font-weight: bold;";
    "            }";
    "            a:hover { text-decoration: underline; }";
    "            img { ";
    "                max-width: 100%; ";
    "                margin-top: 20px; ";
    "                border: 2px solid #333;";
    "                border-radius: 5px;";
    "            }";
    "            code {";
    "                background: #f4f4f4;";
    "                padding: 2px 5px;";
    "                border-radius: 3px;";
    "            }";
    "        </style>";
    "    </head>";
    "    <body>";
    "        <h1>" ++ movie_camera ++ " Mock CCTV Camera Server</h1>";
    "        <p>This server simulates a CCTV camera for testing with Power Automate.</p>";
    "        ";
    "        <h2>Available Endpoints:</h2>";
    "        ";
    "        <div class=" ++ dq ++ "endpoint" ++ dq ++ ">";
    "            <h3>" ++ camera_with_flash ++ " Get Snapshot</h3>";
    "            <p>Returns a JPEG image from the camera</p>";
    "            <p>URL: <a href=" ++ dq ++ "/snapshot" ++ dq ++ " target=" ++ dq ++ "_blank" ++ dq ++ ">http://localhost:5000/snapshot</a></p>";
    "            <p>Method: <code>GET</code></p>";
    "            <p>Returns: <code>image/jpeg</code></p>";
    "        </div>";
    "        ";
    "        <div class=" ++ dq ++ "endpoint" ++ dq ++ ">";
    "            <h3>" ++ bar_chart ++ " Get Camera Status</h3>";
    "            <p>Returns JSON with camera information</p>";
    "            <p>URL: <a href=" ++ dq ++ "/status" ++ dq ++ " target=" ++ dq ++ "_blank" ++ dq ++ ">http://localhost:5000/status</a></p>";
    "            <p>Method: <code>GET</code></p>";
    "            <p>Returns: <code>application/json</code></p>";
    "        </div>";
    "        ";
    "        <h2>Current Snapshot:</h2>";
    "        <img src=" ++ dq ++ "/snapshot" ++ dq ++ " alt=" ++ dq ++ "Camera Snapshot" ++ dq ++ " id=" ++ dq ++ "snapshot" ++ dq ++ ">";
    "        ";
    "        <script>";
    "            // Auto-refresh image every 5 seconds";
    "            setInterval(function() {";
    "                document.getElementById('snapshot').src = '/snapshot?' + new Date().getTime();";
    "            }, 5000);";
    "        </script>";
    "        ";
    "        <h2>Power Automate Integration:</h2>";
    "        <p>To use this in Power Automate:</p>";
    "        <ol>";
    "            <li>Use the HTTP action</li>";
    "            <li>Set Method to GET</li>";
    "            <li>Set URI to <code>http://localhost:5000/snapshot</code> or <code>http://YOUR_IP:5000/snapshot</code></li>";
    "            <li>The response will contain the image data</li>";
    "        </ol>";
    "    </body>";
    "    </html>";
    "    " ].

(** The [html] literal of [home]. *)
Definition html : string := String.concat nl html_lines.

(** [home()], route ['/']. *)
Definition home : M ViewResult :=
  ret (RvStr html).

(** [snapshot()], route ['/snapshot']. *)
Definition snapshot : M ViewResult :=
  img_buffer <- create_test_image ;;
  r <- flask_send_file img_buffer "image/jpeg" ;;
  ret (RvResponse r).

(** [status()], route ['/status']. *)
Definition status : M ViewResult :=
  now <- datetime_now ;;
  n <- load_frame_count ;;
  ret (RvDict
         [ ("camera_id", JStr "MOCK-CAM-01");
           ("status", JStr "online");
           ("timestamp", JStr (isoformat now));
           ("frame_count", JInt n);
           ("resolution", JStr "640x480");
           ("location", JStr "Test Location");
           ("type", JStr "Mock CCTV Camera") ]).

(** The [@app.route] table, for GET requests. *)
Definition url_map (path : string) : option (M ViewResult) :=
  if String.eqb path "/" then Some home
  else if String.eqb path "/snapshot" then Some snapshot
  else if String.eqb path "/status" then Some status
  else None.

(** One GET request: an unknown path is Flask's 404, an exception escaping
    the view is a 500, and the process goes on with the state as the view
    left it. *)
Definition handle_request (path : string) (env : Env) (st : State) : Response * State :=
  match url_map path with
  | None => ({| status_code := 404; mimetype := "text/html"; body := ErrorPage |}, st)
  | Some view =>
      match view env st with
      | (Return rv, st') => (make_response rv, st')
      | (Raised _, st') =>
          ({| status_code := 500; mimetype := "text/html"; body := ErrorPage |}, st')
      end
  end.

(** A server lifetime: the GET requests in the order they are handled, each
    with the health of the libraries while it runs. *)
Definition Lifetime : Type := list (string * Env).

Fixpoint serve (reqs : Lifetime) (st : State) : list Response * State :=
  match reqs with
  | [] => ([], st)
  | (path, env) :: reqs' =>
      let '(r, st1) := handle_request path env st in
      let '(rs, st2) := serve reqs' st1 in
      (r :: rs, st2)
  end.

(** The state when the module has been loaded: [camera = SimpleCCTVCamera()]. *)
Definition startup (r : RandomSource) (c : Clock) : State :=
  {| camera := __init__; random_state := r; wall_clock := c |}.

(** ** The [__main__] block *)

Record RunArgs : Type := mk_RunArgs {
  host : string;
  port : Z;
  debug : bool
}.

(** ["=" * n]. *)
Fixpoint str_times (s : string) (n : nat) : string :=
  match n with
  | O => EmptyString
  | S n' => s ++ str_times s n'
  end.

(** The block reads neither the command line nor the process environment;
    both are arguments here so that this can be stated.  It prints the
    banner and calls [app.run]. *)
Definition main (argv : list string) (environ : list (string * string))
    : list string * RunArgs :=
  ( [ nl ++ str_times "=" 50;
      "Mock CCTV Camera Server";
      str_times "=" 50;
      nl ++ "Server is running at: http://localhost:5000";
      nl ++ "Endpoints:";
      "  Home Page:    http://localhost:5000/";
      "  Snapshot:     http://localhost:5000/snapshot";
      "  Status:       http://localhost:5000/status";
      nl ++ "Press Ctrl+C to stop the server";
      str_times "=" 50 ++ nl ],
    {| host := "0.0.0.0"; port := 5000; debug := true |} ).

(** ** Several [create_test_image] calls in flight at once

    Flask may run views on several threads.  The method takes no lock, and
    [self.frame_count += 1] is a read of the attribute followed by a write
    of the sum; the label on line 59 reads the attribute once more.  These
    three accesses are the only places where a call touches the counter,
    so a call in flight is at one of four points. *)
Module Threads.

Inductive Pc : Type :=
  | Start                (* the counter not yet read *)
  | Loaded (v : Z)       (* line 58: [self.frame_count] read as [v] *)
  | Stored               (* line 58: [v + 1] written *)
  | Finished (label : Z) (* line 59: the label's number read *).

Record Conf : Type := mk_Conf {
  shared : Z;           (* [camera.frame_count] *)
  pool : list Pc
}.

(** The next counter access of one call. *)
Definition access (c : Z) (pc : Pc) : Z * Pc :=
  match pc with
  | Start => (c, Loaded c)
  | Loaded v => (v + 1, Stored)
  | Stored => (c, Finished c)
  | Finished n => (c, Finished n)
  end.

(** Thread [i] is scheduled for one access. *)
Definition step (i : nat) (cf : Conf) : Conf :=
  match pool cf !! i with
  | None => cf
  | Some pc =>
      let '(c', pc') := access (shared cf) pc in
      {| shared := c'; pool := <[i := pc']> (pool cf) |}
  end.

Fixpoint run (schedule : list nat) (cf : Conf) : Conf :=
  match schedule with
  | [] => cf
  | i :: rest => run rest (step i cf)
  end.

Definition is_finished (pc : Pc) : bool :=
  match pc with
  | Finished _ => true
  | _ => false
  end.

Definition all_finished (cf : Conf) : bool := forallb is_finished (pool cf).

(** [K] calls fired on a camera whose counter is [c]. *)
Definition fire (c : Z) (K : nat) : Conf :=
  {| shared := c; pool := replicate K Start |}.

(** The schedule that lets each call make its three accesses in one go. *)
Definition one_after_another (K : nat) : list nat :=
  flat_map (fun i => [i; i; i]) (seq 0 K).

(** The calls that have written their sum. *)
Fixpoint written (ts : list Pc) : Z :=
  match ts with
  | [] => 0
  | Stored :: ts' | Finished _ :: ts' => 1 + written ts'
  | _ :: ts' => written ts'
  end.

(** What holds of the counter while calls fired at count [c0] are under
    way: it lies between [c0] and [c0] plus the number of sums written, it
    has left [c0] once a sum was written, and so does every value that a
    call has read and not yet written back. *)
Definition in_flight (c0 : Z) (cf : Conf) : Prop :=
  c0 <= shared cf <= c0 + written (pool cf)
  /\ (0 < written (pool cf) -> c0 + 1 <= shared cf)
  /\ Forall (fun pc => match pc with
                       | Loaded v => c0 <= v <= c0 + written (pool cf)
                       | _ => True
                       end) (pool cf).

End Threads.

(** ** Vocabulary of the statements *)

Definition returned {A} (o : Outcome A) : bool :=
  match o with
  | Return _ => true
  | Raised _ => false
  end.

(** [create_test_image] called once per element of [envs], one call after
    the other, on the same camera. *)
Fixpoint calls (envs : list Env) (st : State) : list (Outcome BytesIO) * State :=
  match envs with
  | [] => ([], st)
  | env :: envs' =>
      let '(o, st1) := create_test_image env st in
      let '(os, st2) := calls envs' st1 in
      (o :: os, st2)
  end.

(** The image that a returned buffer encodes. *)
Definition decoded (buf : BytesIO) : option Image :=
  match read buf with
  | Encoded _ img => Some img
  | NoBytes => None
  end.

(** The rectangles of an image, in drawing order. *)
Fixpoint rectangles (ops : list DrawOp) : list (Z * Z * Z * Z * Color * Color) :=
  match ops with
  | [] => []
  | Rectangle box fill outline :: ops' => (box, fill, outline) :: rectangles ops'
  | _ :: ops' => rectangles ops'
  end.

(** The texts of an image, in drawing order: place, string, colour. *)
Fixpoint texts (ops : list DrawOp) : list (Z * Z * string * Color) :=
  match ops with
  | [] => []
  | Text xy s fill _ :: ops' => (xy, s, fill) :: texts ops'
  | _ :: ops' => texts ops'
  end.

(** A rectangle as the frame is meant to have it: [w] and [h] in [30..100],
    inside the 640x480 canvas, channels in [100..255], white outline. *)
Definition rectangle_in_bounds (rc : Z * Z * Z * Z * Color * Color) : Prop :=
  let '(x, y, x2, y2, fill, outline) := rc in
  let w := x2 - x in
  let h := y2 - y in
  (0 <= x /\ 0 <= y /\ 30 <= w <= 100 /\ 30 <= h <= 100 /\ x + w <= 640 /\ y + h <= 480)
  /\ (exists r g b, fill = RGB r g b
        /\ 100 <= r <= 255 /\ 100 <= g <= 255 /\ 100 <= b <= 255)
  /\ outline = Named "white".

(** The seven numbers of one rectangle as [create_test_image] may draw them:
    [x], [y], [w], [h] and the three colour channels. *)
Definition drawable (q : Z * Z * Z * Z * Z * Z * Z) : Prop :=
  let '(x, y, w, h, r, g, b) := q in
  0 <= x <= 540 /\ 0 <= y <= 380 /\ 30 <= w <= 100 /\ 30 <= h <= 100
  /\ 100 <= r <= 255 /\ 100 <= g <= 255 /\ 100 <= b <= 255.

Definition rectangle_of (q : Z * Z * Z * Z * Z * Z * Z) : Z * Z * Z * Z * Color * Color :=
  let '(x, y, w, h, r, g, b) := q in
  ((x, y, x + w, y + h), RGB r g b, Named "white").

(** A random source whose raw draws lead to the given numbers. *)
Definition raws_of (q : Z * Z * Z * Z * Z * Z * Z) : list Z :=
  let '(x, y, w, h, r, g, b) := q in
  [x - 0; y - 0; w - 30; h - 30; r - 100; g - 100; b - 100].

Definition random_for (qs : list (Z * Z * Z * Z * Z * Z * Z)) : RandomSource :=
  {| tape := fun i => nth i (flat_map raws_of qs) 0; consumed := 0 |}.

(** The font that the text calls get: the default one, or [None] when
    loading it raised. *)
Definition font_used (env : Env) : option Font :=
  if env ImageFont_load_default then None else Some DefaultFont.

(** The library calls that [create_test_image] makes before line 58 all go
    through. *)
Definition reaches_increment (env : Env) : bool :=
  negb (env Image_new || env ImageDraw_Draw || env draw_line
        || env draw_rectangle || env (draw_text (font_used env))).

(** The requests of a lifetime that ask for ['/snapshot']. *)
Definition snapshot_requests (reqs : Lifetime) : Lifetime :=
  List.filter (fun rq => String.eqb (fst rq) "/snapshot") reqs.

(** The responses to the ['/snapshot'] requests of a lifetime. *)
Fixpoint snapshot_responses (reqs : Lifetime) (rs : list Response) : list Response :=
  match reqs, rs with
  | (path, _) :: reqs', r :: rs' =>
      if String.eqb path "/snapshot" then r :: snapshot_responses reqs' rs'
      else snapshot_responses reqs' rs'
  | _, _ => []
  end.

Definition succeeded (r : Response) : bool := Z.eqb (status_code r) 200.

(** Environments met below.  Pillow's [draw.text] resolves [font=None] by
    loading the default font itself, so where [ImageFont.load_default]
    raises, a text call without a font raises as well. *)
Definition fonts_unavailable : Env :=
  fun c =>
    match c with
    | ImageFont_load_default | draw_text None => true
    | _ => false
    end.

(** A Pillow without its JPEG encoder: [image.save] raises. *)
Definition encoder_missing : Env :=
  fun c =>
    match c with
    | image_save => true
    | _ => false
    end.

(** A random source that always draws [raw] and a clock stopped at [dt]. *)
Definition constant_random (raw : Z) : RandomSource :=
  {| tape := fun _ => raw; consumed := 0 |}.

Definition stopped_clock (dt : datetime) : Clock :=
  {| readings := fun _ => dt; asked := 0 |}.

Definition noon : datetime :=
  {| year := 2024; month := 5; day := 17; hour := 12; minute := 0; second := 0;
     microsecond := 0 |}.

(** The ['/snapshot'] requests of a lifetime that get as far as line 58. *)
Definition incrementing (reqs : Lifetime) : Lifetime :=
  List.filter (fun rq => reaches_increment (snd rq)) (snapshot_requests reqs).

(** The font argument of every text call of an image. *)
Fixpoint text_fonts (ops : list DrawOp) : list (option Font) :=
  match ops with
  | [] => []
  | Text _ _ _ font :: ops' => font :: text_fonts ops'
  | _ :: ops' => text_fonts ops'
  end.

(** The [frame_count] field of the answer to a ['/status'] request. *)
Definition status_frame_count (env : Env) (st : State) : option JsonValue :=
  match body (fst (handle_request "/status" env st)) with
  | JsonBody d => dict_get d "frame_count"
  | _ => None
  end.

(** A first request on a healthy installation, for the examples. *)
Definition sample_state : State := startup (constant_random 7) (stopped_clock noon).

Definition sample_frame : BytesIO :=
  match fst (create_test_image healthy sample_state) with
  | Return buf => buf
  | Raised _ => io_BytesIO
  end.

Definition sample_state_after : State :=
  snd (create_test_image healthy sample_state).

(** The third request in a row on such an installation. *)
Definition third_frame : BytesIO :=
  match fst (create_test_image healthy (snd (calls [healthy; healthy] sample_state))) with
  | Return buf => buf
  | Raised _ => io_BytesIO
  end.

Definition state_after_third : State :=
  snd (create_test_image healthy (snd (calls [healthy; healthy] sample_state))).

(** ** Vocabulary of the further properties *)

(** The lines of an image, in drawing order: points, colour, width. *)
Fixpoint lines (ops : list DrawOp) : list (list (Z * Z) * Color * Z) :=
  match ops with
  | [] => []
  | Line xy fill width :: ops' => (xy, fill, width) :: lines ops'
  | _ :: ops' => lines ops'
  end.

Inductive OpKind : Type := KLine | KRectangle | KText | KEllipse.

Definition kind_of (op : DrawOp) : OpKind :=
  match op with
  | Line _ _ _ => KLine
  | Rectangle _ _ _ => KRectangle
  | Text _ _ _ _ => KText
  | Ellipse _ _ => KEllipse
  end.

(** The points that a drawing call names. *)
Definition op_points (op : DrawOp) : list (Z * Z) :=
  match op with
  | Line xy _ _ => xy
  | Rectangle (x0, y0, x1, y1) _ _ => [(x0, y0); (x1, y1)]
  | Text xy _ _ _ => [xy]
  | Ellipse (x0, y0, x1, y1) _ => [(x0, y0); (x1, y1)]
  end.

Definition on_canvas (p : Z * Z) : Prop :=
  0 <= fst p <= 640 /\ 0 <= snd p <= 480.

(** The string of the frame label, the third text of a frame. *)
Definition frame_label (buf : BytesIO) : option string :=
  match decoded buf with
  | Some img => option_map (fun t => snd (fst t)) (nth_error (texts (drawn img)) 2)
  | None => None
  end.

(** [int(s)] for a decimal string. *)
Definition int_of_str (s : string) : option Z :=
  option_map Z.of_int (NilZero.int_of_string s).




(** A library that draws text without a font although the default font
    cannot be loaded. *)
Definition fonts_tolerated : Env :=
  fun c =>
    match c with
    | ImageFont_load_default => true
    | _ => false
    end.

(** Another camera, later in its life, whose random source is in the state
    of [sample_state]. *)
Definition reseeded_state : State :=
  {| camera := {| frame_count := 41 |};
     random_state := constant_random 7;
     wall_clock := stopped_clock noon |}.

Definition reseeded_frame : BytesIO :=
  match fst (create_test_image fonts_tolerated reseeded_state) with
  | Return buf => buf
  | Raised _ => io_BytesIO
  end.

Definition reseeded_state_after : State :=
  snd (create_test_image fonts_tolerated reseeded_state).

(** A lifetime of mixed requests in which no snapshot fails. *)
Definition mixed_requests : Lifetime :=
  [ ("/", healthy); ("/snapshot", healthy); ("/status", encoder_missing);
    ("/nowhere", healthy); ("/snapshot", fonts_tolerated) ].

(** The numbers on the labels of the calls that are through lie between
    [lo] and [hi]. *)
Definition labels_between (lo hi : Z) (ts : list Threads.Pc) : Prop :=
  Forall (fun pc => match pc with
                    | Threads.Finished l => lo <= l <= hi
                    | _ => True
                    end) ts.

(** Three choices of rectangles: one in the far corner, as large as can
    be, one in the near corner, as small as can be, and one in between. *)
Definition far_corner : Z * Z * Z * Z * Z * Z * Z := (540, 380, 100, 100, 255, 255, 255).
Definition near_corner : Z * Z * Z * Z * Z * Z * Z := (0, 0, 30, 30, 100, 100, 100).
Definition in_between : Z * Z * Z * Z * Z * Z * Z := (17, 200, 64, 31, 128, 200, 250).

(** * Properties *)

(** ** The loops of [create_test_image] *)

Example range_grid_x :
  range 0 640 50 = [0; 50; 100; 150; 200; 250; 300; 350; 400; 450; 500; 550; 600].
Proof. reflexivity. Qed.

Example range_grid_y :
  range 0 480 50 = [0; 50; 100; 150; 200; 250; 300; 350; 400; 450].
Proof. reflexivity. Qed.

Example range_3 : range 0 3 1 = [0; 1; 2].
Proof. reflexivity. Qed.

(** ** Running [create_test_image] symbolically *)

#[local] Arguments pick : simpl never.
#[local] Arguments str_of_int : simpl never.
#[local] Arguments strftime_Ymd_HMS : simpl never.
#[local] Arguments isoformat : simpl never.

Ltac unfold_py :=
  cbv beta iota zeta delta
    [bind ret try_except for_in lib randint datetime_now load_frame_count
     store_frame_count PIL_Image_new PIL_ImageDraw_Draw PIL_line PIL_rectangle
     PIL_load_default PIL_text PIL_ellipse PIL_save put io_BytesIO seek0
     flask_send_file
     camera random_state wall_clock tape consumed readings asked frame_count
     mode size background drawn getvalue tell].

Ltac unfold_create :=
  unfold create_test_image; cbv zeta;
  rewrite range_grid_x, range_grid_y, range_3;
  unfold_py.

(** Case analysis on the library calls, in the order the program meets
    them. *)
Ltac env_cases env :=
  repeat match goal with
         | |- context [env ?c] =>
             let E := fresh "E" in
             destruct (env c) eqn:E; cbv beta iota
         end.

(** ** One call and the counter *)

(** A call adds one to the counter if it gets as far as line 58, and leaves
    it alone otherwise. *)
Lemma create_test_image_counter (env : Env) (st : State) :
  frame_count (camera (snd (create_test_image env st))) =
  frame_count (camera st) + (if reaches_increment env then 1 else 0).
Proof.
  destruct st as [[c] [tp k] [rd a]].
  unfold reaches_increment, font_used.
  unfold_create. env_cases env; cbn; lia.
Qed.

(** A call returns exactly when no library call it makes raises. *)
Lemma create_test_image_returned (env : Env) (st : State) :
  returned (fst (create_test_image env st)) =
  reaches_increment env && negb (env draw_ellipse) && negb (env image_save).
Proof.
  destruct st as [[c] [tp k] [rd a]].
  unfold reaches_increment, font_used.
  unfold_create. env_cases env; reflexivity.
Qed.

Lemma returned_reaches_increment (env : Env) (st : State) :
  returned (fst (create_test_image env st)) = true -> reaches_increment env = true.
Proof.
  rewrite create_test_image_returned.
  intros H. apply andb_prop in H as [H _]. now apply andb_prop in H as [H _].
Qed.

Lemma create_test_image_healthy (st : State) :
  returned (fst (create_test_image healthy st)) = true.
Proof. now rewrite create_test_image_returned. Qed.

Lemma create_test_image_adds_one (env : Env) (st : State) :
  returned (fst (create_test_image env st)) = true ->
  frame_count (camera (snd (create_test_image env st))) = frame_count (camera st) + 1.
Proof.
  intros H. rewrite create_test_image_counter.
  now rewrite (returned_reaches_increment env st H).
Qed.

(** The camera has no attribute besides the counter. *)
Lemma camera_eq (c1 c2 : SimpleCCTVCamera) :
  frame_count c1 = frame_count c2 -> c1 = c2.
Proof. destruct c1, c2; cbn; congruence. Qed.

(** ** The views and the state *)

Lemma home_eq (env : Env) (st : State) : home env st = (Return (RvStr html), st).
Proof. reflexivity. Qed.

Lemma status_eq (env : Env) (st : State) :
  status env st =
  (Return (RvDict
     [ ("camera_id", JStr "MOCK-CAM-01");
       ("status", JStr "online");
       ("timestamp", JStr (isoformat (readings (wall_clock st) (asked (wall_clock st)))));
       ("frame_count", JInt (frame_count (camera st)));
       ("resolution", JStr "640x480");
       ("location", JStr "Test Location");
       ("type", JStr "Mock CCTV Camera") ]),
   {| camera := camera st;
      random_state := random_state st;
      wall_clock := {| readings := readings (wall_clock st);
                       asked := S (asked (wall_clock st)) |} |}).
Proof. reflexivity. Qed.

(** [send_file] does not touch the state: what [snapshot] leaves behind is
    what [create_test_image] left. *)
Lemma snapshot_state (env : Env) (st : State) :
  snd (snapshot env st) = snd (create_test_image env st).
Proof.
  unfold snapshot, bind.
  destruct (create_test_image env st) as [[buf | e] st1]; [| reflexivity].
  unfold flask_send_file, bind, lib, ret. now destruct (env send_file).
Qed.

(** A ['/snapshot'] request is answered with 200 exactly when the frame is
    made and [send_file] does not raise. *)
Lemma snapshot_succeeded (env : Env) (st : State) :
  succeeded (fst (handle_request "/snapshot" env st)) =
  returned (fst (create_test_image env st)) && negb (env send_file).
Proof.
  unfold handle_request. cbn [url_map String.eqb Ascii.eqb Bool.eqb].
  unfold snapshot, bind.
  destruct (create_test_image env st) as [[buf | e] st1]; [| reflexivity].
  unfold flask_send_file, bind, lib, ret. now destruct (env send_file).
Qed.

Lemma handle_snapshot_state (env : Env) (st : State) :
  snd (handle_request "/snapshot" env st) = snd (create_test_image env st).
Proof.
  rewrite <- snapshot_state. unfold handle_request.
  cbn [url_map String.eqb Ascii.eqb Bool.eqb].
  now destruct (snapshot env st) as [[rv | e] st1].
Qed.

(** Every request but ['/snapshot'] leaves the camera as it is. *)
Lemma handle_other_camera (path : string) (env : Env) (st : State) :
  String.eqb path "/snapshot" = false ->
  camera (snd (handle_request path env st)) = camera st.
Proof.
  intros Hp. unfold handle_request, url_map. rewrite Hp.
  destruct (String.eqb path "/"); [reflexivity |].
  destruct (String.eqb path "/status"); reflexivity.
Qed.

Lemma handle_request_counter (path : string) (env : Env) (st : State) :
  frame_count (camera (snd (handle_request path env st))) =
  frame_count (camera st)
  + (if String.eqb path "/snapshot" && reaches_increment env then 1 else 0).
Proof.
  destruct (String.eqb path "/snapshot") eqn:Hp.
  - apply String.eqb_eq in Hp. subst path.
    rewrite handle_snapshot_state. apply create_test_image_counter.
  - rewrite handle_other_camera by assumption. cbn. lia.
Qed.

(** ** Calls one after the other *)

Lemma calls_cons (env : Env) (envs : list Env) (st : State) :
  calls (env :: envs) st =
  (fst (create_test_image env st) :: fst (calls envs (snd (create_test_image env st))),
   snd (calls envs (snd (create_test_image env st)))).
Proof.
  cbn [calls]. destruct (create_test_image env st) as [o st1]. cbn [fst snd].
  now destruct (calls envs st1).
Qed.

Lemma calls_counter (envs : list Env) (st : State) :
  forallb returned (fst (calls envs st)) = true ->
  frame_count (camera (snd (calls envs st))) =
  frame_count (camera st) + Z.of_nat (length envs).
Proof.
  revert st. induction envs as [| env envs IH]; intros st H.
  - cbn. lia.
  - rewrite calls_cons in *. cbn [fst snd forallb] in *.
    apply andb_prop in H as [H1 H2].
    rewrite (IH _ H2), (create_test_image_adds_one _ _ H1).
    cbn [length]. lia.
Qed.

Lemma calls_healthy (N : nat) (st : State) :
  forallb returned (fst (calls (repeat healthy N) st)) = true.
Proof.
  revert st. induction N as [| N IH]; intros st; [reflexivity |].
  cbn [repeat]. rewrite calls_cons. cbn [fst forallb].
  now rewrite create_test_image_healthy, IH.
Qed.

(** C1. From a fresh camera, whose counter is 0, [N] calls of
    [create_test_image] made one after the other, each of which returns its
    frame, leave [frame_count = N].  One call moves the counter by one or
    (when it raises before line 58) not at all, no request ever lowers it,
    and where the libraries do not raise every call does return. *)
Theorem frame_count_after_calls (envs : list Env) (r : RandomSource) (c : Clock) :
  forallb returned (fst (calls envs (startup r c))) = true ->
  frame_count (camera (startup r c)) = 0
  /\ frame_count (camera (snd (calls envs (startup r c)))) = Z.of_nat (length envs)
  /\ (forall env st,
        frame_count (camera st)
        <= frame_count (camera (snd (create_test_image env st)))
        <= frame_count (camera st) + 1)
  /\ (forall env st,
        returned (fst (create_test_image env st)) = true ->
        frame_count (camera (snd (create_test_image env st)))
        = frame_count (camera st) + 1)
  /\ (forall path env st,
        frame_count (camera st)
        <= frame_count (camera (snd (handle_request path env st))))
  /\ (forall N r' c',
        forallb returned (fst (calls (repeat healthy N) (startup r' c'))) = true
        /\ frame_count (camera (snd (calls (repeat healthy N) (startup r' c'))))
           = Z.of_nat N).
Proof.
  intros H. split; [reflexivity |]. split; [| split; [| split; [| split]]].
  - now rewrite (calls_counter _ _ H).
  - intros env st. rewrite create_test_image_counter.
    destruct (reaches_increment env); lia.
  - apply create_test_image_adds_one.
  - intros path env st. rewrite handle_request_counter.
    destruct (String.eqb path "/snapshot" && reaches_increment env); lia.
  - intros N r' c'. split; [apply calls_healthy |].
    rewrite (calls_counter _ _ (calls_healthy N _)), repeat_length.
    reflexivity.
Qed.

Lemma frame_count_after_calls_witness :
  forallb returned
    (fst (calls [healthy; healthy; healthy]
            (startup (constant_random 7) (stopped_clock noon)))) = true
  /\ frame_count
       (camera (snd (calls [healthy; healthy; healthy]
                       (startup (constant_random 7) (stopped_clock noon))))) = 3.
Proof.
  assert (H : forallb returned
                (fst (calls [healthy; healthy; healthy]
                        (startup (constant_random 7) (stopped_clock noon)))) = true)
    by (vm_compute; reflexivity).
  split; [exact H |].
  exact (proj1 (proj2 (frame_count_after_calls _ _ _ H))).
Defined.

(** ** The frame *)

Lemma pick_range (a b raw : Z) : a <= b -> a <= pick a b raw <= b.
Proof.
  intros H. unfold pick.
  pose proof (Z.mod_pos_bound raw (b - a + 1)). lia.
Qed.

Lemma pick_hits (a b v : Z) : a <= v <= b -> pick a b (v - a) = v.
Proof. intros H. unfold pick. rewrite Z.mod_small; lia. Qed.

(** The rectangle that the loop body draws from seven raw draws. *)
Lemma drawn_rectangle_in_bounds (tx ty tw th tr tg tb : Z) :
  rectangle_in_bounds
    (pick 0 (640 - 100) tx, pick 0 (480 - 100) ty,
     pick 0 (640 - 100) tx + pick 30 100 tw,
     pick 0 (480 - 100) ty + pick 30 100 th,
     RGB (pick 100 255 tr) (pick 100 255 tg) (pick 100 255 tb),
     Named "white").
Proof.
  unfold rectangle_in_bounds.
  pose proof (pick_range 0 (640 - 100) tx).
  pose proof (pick_range 0 (480 - 100) ty).
  pose proof (pick_range 30 100 tw).
  pose proof (pick_range 30 100 th).
  split; [lia |]. split; [| reflexivity].
  exists (pick 100 255 tr), (pick 100 255 tg), (pick 100 255 tb).
  pose proof (pick_range 100 255 tr).
  pose proof (pick_range 100 255 tg).
  pose proof (pick_range 100 255 tb).
  split; [reflexivity | lia].
Qed.

(** C5. A frame that [create_test_image] returns has exactly three
    rectangles; each has its width and height in [30..100], lies inside the
    640x480 canvas ([x + w <= 640], [y + h <= 480]), is filled with an RGB
    colour whose channels are in [100..255] and has a white outline.  Every
    one of the 21 numbers comes from a draw of its own. *)
Theorem three_rectangles_in_bounds
    (env : Env) (st : State) (buf : BytesIO) (st' : State) :
  create_test_image env st = (Return buf, st') ->
  exists img r1 r2 r3,
    decoded buf = Some img
    /\ size img = (640, 480)
    /\ rectangles (drawn img) = [r1; r2; r3]
    /\ rectangle_in_bounds r1 /\ rectangle_in_bounds r2 /\ rectangle_in_bounds r3
    /\ consumed (random_state st') = (consumed (random_state st) + 21)%nat.
Proof.
  destruct st as [[c] [tp k] [rd a]].
  unfold_create.
  env_cases env; intros H; try discriminate H.
  all: injection H as <- <-.
  all: eexists; do 3 eexists.
  all: split; [reflexivity |]; split; [reflexivity |]; split; [reflexivity |].
  all: repeat (split; [apply drawn_rectangle_in_bounds |]).
  all: cbn; lia.
Qed.

Lemma three_rectangles_in_bounds_witness :
  create_test_image healthy sample_state = (Return sample_frame, sample_state_after)
  /\ exists img r1 r2 r3,
       decoded sample_frame = Some img
       /\ size img = (640, 480)
       /\ rectangles (drawn img) = [r1; r2; r3]
       /\ rectangle_in_bounds r1 /\ rectangle_in_bounds r2 /\ rectangle_in_bounds r3
       /\ consumed (random_state sample_state_after)
          = (consumed (random_state sample_state) + 21)%nat.
Proof.
  assert (H : create_test_image healthy sample_state
              = (Return sample_frame, sample_state_after))
    by (vm_compute; reflexivity).
  exact (conj H (three_rectangles_in_bounds _ _ _ _ H)).
Defined.

(** X15. The three rectangles do not constrain one another: any three
    choices of [x] in [0..540], [y] in [0..380], [w] and [h] in [30..100]
    and channels in [100..255] come out of some random source, on any
    camera and at any time. *)
Lemma any_three_rectangles_can_be_drawn
    (q1 q2 q3 : Z * Z * Z * Z * Z * Z * Z) (cam : SimpleCCTVCamera) (clk : Clock) :
  drawable q1 -> drawable q2 -> drawable q3 ->
  exists buf st' img,
    create_test_image healthy
      {| camera := cam; random_state := random_for [q1; q2; q3]; wall_clock := clk |}
    = (Return buf, st')
    /\ decoded buf = Some img
    /\ rectangles (drawn img) = map rectangle_of [q1; q2; q3].
Proof.
  destruct q1 as [[[[[[x1 y1] w1] h1] r1] g1] b1].
  destruct q2 as [[[[[[x2 y2] w2] h2] r2] g2] b2].
  destruct q3 as [[[[[[x3 y3] w3] h3] r3] g3] b3].
  destruct cam as [c]. destruct clk as [rd a].
  unfold drawable. intros H1 H2 H3.
  unfold random_for. unfold_create.
  cbv beta iota delta [healthy].
  do 3 eexists. split; [reflexivity |]. split; [reflexivity |].
  cbn [rectangles drawn map rectangle_of flat_map raws_of app nth].
  change (640 - 100) with 540. change (480 - 100) with 380.
  rewrite !pick_hits by lia. reflexivity.
Qed.

(** The texts of a returned frame: camera name, time stamp, frame label and
    REC, the label carrying the counter as the call left it. *)
Lemma create_test_image_texts (env : Env) (st : State) (buf : BytesIO) (st' : State) :
  create_test_image env st = (Return buf, st') ->
  exists img,
    decoded buf = Some img
    /\ texts (drawn img) =
       [ ((10, 10), "MOCK CCTV - CAMERA 01", Named "lime");
         ((10, 30),
          strftime_Ymd_HMS (readings (wall_clock st) (asked (wall_clock st))),
          Named "lime");
         ((10, 50), "Frame: " ++ str_of_int (frame_count (camera st')), Named "lime");
         ((560, 12), "REC", Named "white") ]
    /\ frame_count (camera st') = frame_count (camera st) + 1.
Proof.
  destruct st as [[c] [tp k] [rd a]].
  unfold_create.
  env_cases env; intros H; try discriminate H.
  all: injection H as <- <-.
  all: eexists; split; [reflexivity |]; split; reflexivity.
Qed.

(** C6. The call that follows [N] returned calls on a fresh camera, if it
    returns its frame, has moved the counter by exactly one, to [N + 1], and
    the frame carries one label ["Frame: "] followed by that number [N + 1],
    which is the counter after the increment of this call. *)
Theorem frame_label_is_post_increment
    (envs : list Env) (env : Env) (r : RandomSource) (c : Clock)
    (buf : BytesIO) (st' : State) :
  forallb returned (fst (calls envs (startup r c))) = true ->
  create_test_image env (snd (calls envs (startup r c))) = (Return buf, st') ->
  frame_count (camera st') = frame_count (camera (snd (calls envs (startup r c)))) + 1
  /\ frame_count (camera st') = Z.of_nat (length envs) + 1
  /\ exists img t,
       decoded buf = Some img
       /\ texts (drawn img) =
          [ ((10, 10), "MOCK CCTV - CAMERA 01", Named "lime");
            ((10, 30), t, Named "lime");
            ((10, 50), "Frame: " ++ str_of_int (Z.of_nat (length envs) + 1), Named "lime");
            ((560, 12), "REC", Named "white") ].
Proof.
  intros Hprev Hcall.
  destruct (create_test_image_texts _ _ _ _ Hcall) as (img & Hdec & Htexts & Hcount).
  pose proof (calls_counter _ _ Hprev) as Hn. cbn [startup camera frame_count __init__] in Hn.
  assert (Hafter : frame_count (camera st') = Z.of_nat (length envs) + 1) by lia.
  split; [exact Hcount |]. split; [exact Hafter |].
  exists img, (strftime_Ymd_HMS
                 (readings (wall_clock (snd (calls envs (startup r c))))
                    (asked (wall_clock (snd (calls envs (startup r c))))))).
  split; [exact Hdec |]. rewrite Htexts, Hafter. reflexivity.
Qed.

Lemma frame_label_is_post_increment_witness :
  forallb returned (fst (calls [healthy; healthy] sample_state)) = true
  /\ create_test_image healthy (snd (calls [healthy; healthy] sample_state))
     = (Return third_frame, state_after_third)
  /\ frame_count (camera state_after_third) = 3
  /\ exists img t,
       decoded third_frame = Some img
       /\ texts (drawn img) =
          [ ((10, 10), "MOCK CCTV - CAMERA 01", Named "lime");
            ((10, 30), t, Named "lime");
            ((10, 50), "Frame: " ++ str_of_int 3, Named "lime");
            ((560, 12), "REC", Named "white") ].
Proof.
  assert (H1 : forallb returned
                 (fst (calls [healthy; healthy]
                         (startup (constant_random 7) (stopped_clock noon))))
               = true) by (vm_compute; reflexivity).
  assert (H2 : create_test_image healthy
                 (snd (calls [healthy; healthy]
                         (startup (constant_random 7) (stopped_clock noon))))
               = (Return third_frame, state_after_third))
    by (vm_compute; reflexivity).
  split; [exact H1 |]. split; [exact H2 |].
  exact (proj2 (frame_label_is_post_increment [healthy; healthy] healthy _ _ _ _ H1 H2)).
Defined.

Example third_frame_label :
  exists img, decoded third_frame = Some img
    /\ nth_error (texts (drawn img)) 2 = Some ((10, 50), "Frame: 3", Named "lime").
Proof. eexists. split; vm_compute; reflexivity. Qed.

(** ** The status and home views *)

Example isoformat_noon : isoformat noon = "2024-05-17T12:00:00".
Proof. reflexivity. Qed.

Example isoformat_fraction :
  isoformat {| year := 2026; month := 1; day := 2; hour := 3; minute := 4;
               second := 5; microsecond := 678 |}
  = "2026-01-02T03:04:05.000678".
Proof. reflexivity. Qed.

Example strftime_noon : strftime_Ymd_HMS noon = "2024-05-17 12:00:00".
Proof. reflexivity. Qed.

(** C7. A GET of ['/status'] is answered with status 200, content type
    [application/json] and a JSON object of exactly seven fields: the five
    constants, [timestamp] as the ISO-8601 form of the clock reading, and
    [frame_count] as the camera's counter at that moment. *)
Theorem status_response (env : Env) (st : State) :
  fst (handle_request "/status" env st) =
  {| status_code := 200;
     mimetype := "application/json";
     body := JsonBody
       [ ("camera_id", JStr "MOCK-CAM-01");
         ("status", JStr "online");
         ("timestamp", JStr (isoformat (readings (wall_clock st) (asked (wall_clock st)))));
         ("frame_count", JInt (frame_count (camera st)));
         ("resolution", JStr "640x480");
         ("location", JStr "Test Location");
         ("type", JStr "Mock CCTV Camera") ] |}.
Proof. reflexivity. Qed.

(** C9. Reading [camera.frame_count] changes nothing, and a ['/status']
    request leaves the camera (its counter is all it has) and the random
    source as they were; of all requests only ['/snapshot'] touches the
    camera, and it does so through [create_test_image] alone. *)
Theorem status_leaves_camera_unchanged (env : Env) (st : State) :
  load_frame_count env st = (Return (frame_count (camera st)), st)
  /\ camera (snd (status env st)) = camera st
  /\ random_state (snd (status env st)) = random_state st
  /\ camera (snd (handle_request "/status" env st)) = camera st
  /\ random_state (snd (handle_request "/status" env st)) = random_state st
  /\ (forall path,
        camera (snd (handle_request path env st)) =
        if String.eqb path "/snapshot"
        then camera (snd (create_test_image env st))
        else camera st).
Proof.
  repeat (split; [reflexivity |]).
  intros path. destruct (String.eqb path "/snapshot") eqn:Hp.
  - apply String.eqb_eq in Hp. subst path. now rewrite handle_snapshot_state.
  - now apply handle_other_camera.
Qed.

(** C10. The home page is one fixed string: whatever the camera, the random
    source, the clock and the libraries are, [home] returns the same HTML
    as a 200 [text/html] answer, and leaves the state as it found it. *)
Theorem home_is_constant (env1 env2 : Env) (st1 st2 : State) :
  fst (home env1 st1) = fst (home env2 st2)
  /\ fst (handle_request "/" env1 st1) = fst (handle_request "/" env2 st2)
  /\ fst (handle_request "/" env1 st1)
     = {| status_code := 200; mimetype := "text/html"; body := HtmlBody html |}
  /\ snd (home env1 st1) = st1
  /\ snd (handle_request "/" env1 st1) = st1.
Proof. repeat split. Qed.

Example html_refers_to_snapshot :
  String.index 0 ("<img src=" ++ dq ++ "/snapshot" ++ dq) html <> None.
Proof. vm_compute. discriminate. Qed.

Example html_length : String.length html = 2775%nat.
Proof. vm_compute. reflexivity. Qed.

(** ** The [__main__] block *)

(** C8, as the code has it.  The server is started on all interfaces
    (host [0.0.0.0]) and on port 5000, whatever the command line and the
    process environment hold. *)
Theorem main_binds_port_5000 (argv : list string) (environ : list (string * string)) :
  snd (main argv environ) = {| host := "0.0.0.0"; port := 5000; debug := true |}.
Proof. reflexivity. Qed.

(** No start of the program listens on another port than 5000. *)
Lemma port_cannot_be_configured :
  ~ exists argv environ, port (snd (main argv environ)) <> 5000.
Proof. intros (argv & environ & H). now apply H. Qed.

Example main_ignores_port_request :
  port (snd (main ["cctvserver.py"; "--port"; "8080"] [("PORT", "8080")])) = 5000.
Proof. reflexivity. Qed.

(** ** Fonts that cannot be loaded *)

(** X14. The [except] branch only replaces the font by [None]: a returned
    frame has its four text calls all the same, each with the one font
    argument of the call (the default font, or [None] when loading it
    raised). *)
Lemma text_calls_are_always_made (env : Env) (st : State) (buf : BytesIO) (st' : State) :
  create_test_image env st = (Return buf, st') ->
  exists img,
    decoded buf = Some img
    /\ text_fonts (drawn img)
       = [font_used env; font_used env; font_used env; font_used env].
Proof.
  destruct st as [[c] [tp k] [rd a]]. unfold font_used.
  unfold_create.
  env_cases env; intros H; try discriminate H.
  all: injection H as <- <-.
  all: eexists; split; reflexivity.
Qed.

(** Where the default font cannot be loaded and a text call without a font
    raises, no frame is returned, and the counter stays where it was. *)
Lemma text_without_font_raises (env : Env) (st : State) :
  env ImageFont_load_default = true ->
  env (draw_text None) = true ->
  returned (fst (create_test_image env st)) = false
  /\ camera (snd (create_test_image env st)) = camera st.
Proof.
  intros H1 H2.
  assert (Hr : reaches_increment env = false).
  { unfold reaches_increment, font_used. rewrite H1, H2.
    now rewrite orb_true_r. }
  split.
  - rewrite create_test_image_returned, Hr. reflexivity.
  - apply camera_eq. rewrite create_test_image_counter, Hr. lia.
Qed.

(** C3, at the input where it fails.  With the fonts unavailable the first
    text call (line 51) raises: [create_test_image] returns no frame, the
    counter is not moved, and the ['/snapshot'] request is answered 500. *)
Theorem fonts_unavailable_snapshot_fails (st : State) :
  fst (create_test_image fonts_unavailable st)
  = Raised (LibraryError (draw_text None))
  /\ camera (snd (create_test_image fonts_unavailable st)) = camera st
  /\ fst (handle_request "/snapshot" fonts_unavailable st)
     = {| status_code := 500; mimetype := "text/html"; body := ErrorPage |}.
Proof.
  destruct st as [[c] [tp k] [rd a]].
  split; [reflexivity |]. split; reflexivity.
Qed.

(** ** A server lifetime *)

Lemma serve_cons (path : string) (env : Env) (reqs : Lifetime) (st : State) :
  serve ((path, env) :: reqs) st =
  (fst (handle_request path env st)
     :: fst (serve reqs (snd (handle_request path env st))),
   snd (serve reqs (snd (handle_request path env st)))).
Proof.
  cbn [serve]. destruct (handle_request path env st) as [r st1]. cbn [fst snd].
  now destruct (serve reqs st1).
Qed.

Lemma incrementing_cons (path : string) (env : Env) (reqs : Lifetime) :
  length (incrementing ((path, env) :: reqs)) =
  ((if String.eqb path "/snapshot" && reaches_increment env then 1 else 0)
   + length (incrementing reqs))%nat.
Proof.
  unfold incrementing, snapshot_requests. cbn [List.filter fst].
  destruct (String.eqb path "/snapshot"); cbn [andb]; [| reflexivity].
  cbn [List.filter snd]. now destruct (reaches_increment env).
Qed.

(** The counter after a lifetime: one for every ['/snapshot'] request that
    got as far as line 58. *)
Lemma serve_counter (reqs : Lifetime) (st : State) :
  frame_count (camera (snd (serve reqs st))) =
  frame_count (camera st) + Z.of_nat (length (incrementing reqs)).
Proof.
  revert st. induction reqs as [| [path env] reqs IH]; intros st.
  - cbn. lia.
  - rewrite serve_cons. cbn [snd].
    rewrite IH, handle_request_counter, incrementing_cons.
    destruct (String.eqb path "/snapshot" && reaches_increment env); lia.
Qed.

(** A ['/snapshot'] request answered with 200 got as far as line 58. *)
Lemma succeeded_le_incrementing (reqs : Lifetime) (st : State) :
  (length (List.filter succeeded (snapshot_responses reqs (fst (serve reqs st))))
   <= length (incrementing reqs))%nat.
Proof.
  revert st. induction reqs as [| [path env] reqs IH]; intros st.
  - cbn. lia.
  - rewrite serve_cons, incrementing_cons. cbn [fst snapshot_responses].
    specialize (IH (snd (handle_request path env st))).
    destruct (String.eqb path "/snapshot") eqn:Hp; cbn [andb]; [| lia].
    apply String.eqb_eq in Hp. subst path. cbn [List.filter].
    rewrite snapshot_succeeded, create_test_image_returned.
    destruct (reaches_increment env); cbn [andb length]; [| lia].
    destruct (negb (env draw_ellipse) && negb (env image_save) && negb (env send_file));
      cbn [length]; lia.
Qed.

Lemma incrementing_le_snapshots (reqs : Lifetime) :
  (length (incrementing reqs) <= length (snapshot_requests reqs))%nat.
Proof. unfold incrementing. apply List.filter_length_le. Qed.

(** C4, as the code has it.  The [frame_count] that ['/status'] reports is
    the number of earlier ['/snapshot'] requests of the lifetime that got as
    far as the increment on line 58: all that were answered with 200, and
    also those that failed later (in the REC indicator, the JPEG encoding or
    [send_file]).  So it is at least the number of successful snapshots and
    at most the number of snapshot requests. *)
Theorem status_counts_incrementing_snapshots
    (reqs : Lifetime) (env : Env) (r : RandomSource) (c : Clock) :
  status_frame_count env (snd (serve reqs (startup r c)))
  = Some (JInt (Z.of_nat (length (incrementing reqs))))
  /\ (length (List.filter succeeded
                (snapshot_responses reqs (fst (serve reqs (startup r c)))))
      <= length (incrementing reqs))%nat
  /\ (length (incrementing reqs) <= length (snapshot_requests reqs))%nat.
Proof.
  split; [| split].
  - unfold status_frame_count. rewrite status_response. cbn [body dict_get String.eqb Ascii.eqb Bool.eqb].
    rewrite serve_counter. cbn [startup camera frame_count __init__].
    do 2 f_equal.
  - apply succeeded_le_incrementing.
  - apply incrementing_le_snapshots.
Qed.

(** Counting the successful snapshots instead is wrong: a lifetime whose
    only snapshot request fails in the JPEG encoder, after line 58, reports
    [frame_count = 1] with no successful snapshot. *)
Lemma failed_snapshot_is_counted :
  ~ (forall (reqs : Lifetime) (env : Env) (r : RandomSource) (c : Clock),
       status_frame_count env (snd (serve reqs (startup r c)))
       = Some (JInt (Z.of_nat
            (length (List.filter succeeded
                       (snapshot_responses reqs (fst (serve reqs (startup r c))))))))).
Proof.
  intros H.
  specialize (H [("/snapshot", encoder_missing)] healthy
                (constant_random 7) (stopped_clock noon)).
  vm_compute in H. discriminate H.
Qed.

Example lifetime_with_failed_snapshot :
  let reqs := [("/status", healthy); ("/snapshot", encoder_missing); ("/status", healthy)] in
  map status_code (fst (serve reqs sample_state)) = [200; 500; 200]
  /\ status_frame_count healthy (snd (serve reqs sample_state)) = Some (JInt 1).
Proof. split; vm_compute; reflexivity. Qed.

(** The scenario of the specification: status, three snapshots, status. *)
Example lifetime_three_snapshots :
  let reqs := [("/snapshot", healthy); ("/snapshot", healthy); ("/snapshot", healthy)] in
  status_frame_count healthy sample_state = Some (JInt 0)
  /\ map status_code (fst (serve reqs sample_state)) = [200; 200; 200]
  /\ status_frame_count healthy (snd (serve reqs sample_state)) = Some (JInt 3).
Proof. repeat split; vm_compute; reflexivity. Qed.

(** ** Calls in flight at once *)

Import Threads.

Lemma lookup_insert_split {A} (l : list A) (i : nat) (x y : A) :
  l !! i = Some x ->
  exists l1 l2, l = (l1 ++ x :: l2)%list /\ <[i := y]> l = (l1 ++ y :: l2)%list.
Proof.
  intros H. exists (take i l), (drop (S i) l). split.
  - symmetry. now apply take_drop_middle.
  - apply insert_take_drop. now apply lookup_lt_Some in H.
Qed.

Lemma written_app (l1 l2 : list Pc) :
  written (l1 ++ l2)%list = written l1 + written l2.
Proof.
  induction l1 as [| pc l1 IH]; [reflexivity |].
  cbn [app written]. destruct pc; lia.
Qed.

Lemma written_nonneg (l : list Pc) : 0 <= written l.
Proof. induction l as [| pc l IH]; cbn [written]; [lia |]. destruct pc; lia. Qed.

Lemma written_all_finished (l : list Pc) :
  forallb is_finished l = true -> written l = Z.of_nat (length l).
Proof.
  induction l as [| pc l IH]; [reflexivity |].
  cbn [forallb]. intros H. apply andb_prop in H as [H1 H2].
  destruct pc; try discriminate H1. cbn [written length]. rewrite IH by assumption. lia.
Qed.

Lemma in_flight_fire (c : Z) (K : nat) : in_flight c (fire c K).
Proof.
  assert (Hw : written (replicate K Start) = 0).
  { induction K as [| K IH]; [reflexivity | exact IH]. }
  unfold in_flight, fire. cbn [shared pool]. rewrite Hw.
  split; [lia |]. split; [lia |].
  clear Hw. induction K as [| K IH]; cbn [replicate]; constructor; [exact I | exact IH].
Qed.

Lemma in_flight_step (c0 : Z) (i : nat) (cf : Conf) :
  in_flight c0 cf -> in_flight c0 (step i cf).
Proof.
  intros (Hc & Hpos & Hall). unfold step.
  destruct (pool cf !! i) as [pc |] eqn:Hi; [| now repeat split].
  destruct (lookup_insert_split (pool cf) i pc (snd (access (shared cf) pc)) Hi)
    as (l1 & l2 & Hl & Hins).
  destruct (access (shared cf) pc) as [c' pc'] eqn:Hacc. cbn [snd] in Hins.
  unfold in_flight. cbn [shared pool]. rewrite Hins.
  rewrite Hl in Hc, Hpos, Hall. clear Hl Hins Hi.
  rewrite written_app in *. apply Forall_app in Hall as [Hall1 Hall2].
  apply Forall_cons in Hall2 as [Hpc Hall2].
  pose proof (written_nonneg l1). pose proof (written_nonneg l2).
  destruct pc; cbn [access] in Hacc; injection Hacc as <- <-; cbn [written] in *.
  all: split; [lia |]; split; [lia |].
  all: apply Forall_app; split; [| constructor; [try exact I; lia |]].
  all: try (revert Hall1; apply List.Forall_impl; intros [] ?; try exact I; lia).
  all: revert Hall2; apply List.Forall_impl; intros [] ?; try exact I; lia.
Qed.

Lemma in_flight_run (c0 : Z) (schedule : list nat) (cf : Conf) :
  in_flight c0 cf -> in_flight c0 (run schedule cf).
Proof.
  revert cf. induction schedule as [| i rest IH]; intros cf H; [exact H |].
  cbn [run]. apply IH. now apply in_flight_step.
Qed.

Lemma step_length (i : nat) (cf : Conf) :
  length (pool (step i cf)) = length (pool cf).
Proof.
  unfold step. destruct (pool cf !! i) as [pc |]; [| reflexivity].
  destruct (access (shared cf) pc). cbn [pool]. apply length_insert.
Qed.

Lemma run_length (schedule : list nat) (cf : Conf) :
  length (pool (run schedule cf)) = length (pool cf).
Proof.
  revert cf. induction schedule as [| i rest IH]; intros cf; [reflexivity |].
  cbn [run]. now rewrite IH, step_length.
Qed.

Lemma run_app (s1 s2 : list nat) (cf : Conf) :
  run (s1 ++ s2)%list cf = run s2 (run s1 cf).
Proof.
  revert cf. induction s1 as [| i s1 IH]; intros cf; [reflexivity |].
  cbn [app run]. apply IH.
Qed.

Lemma step_middle (c : Z) (pre post : list Pc) (pc : Pc) :
  step (length pre) {| shared := c; pool := (pre ++ pc :: post)%list |}
  = {| shared := fst (access c pc);
       pool := (pre ++ snd (access c pc) :: post)%list |}.
Proof.
  unfold step. cbn [pool shared].
  rewrite list_lookup_middle by reflexivity.
  destruct (access c pc) as [c' pc']. cbn [fst snd]. f_equal.
  rewrite insert_app_r_alt by lia. now rewrite Nat.sub_diag.
Qed.

(** One call given its three accesses in a row, behind calls that are
    through and in front of calls that have not begun. *)
Lemma run_one_call (c : Z) (pre post : list Pc) :
  run [length pre; length pre; length pre]
      {| shared := c; pool := (pre ++ Start :: post)%list |}
  = {| shared := c + 1; pool := (pre ++ Finished (c + 1) :: post)%list |}.
Proof. cbn [run]. now rewrite !step_middle. Qed.

Lemma run_one_after_another (m : nat) (c : Z) (pre : list Pc) :
  forallb is_finished pre = true ->
  exists done,
    run (flat_map (fun i => [i; i; i]) (seq (length pre) m))
        {| shared := c; pool := (pre ++ replicate m Start)%list |}
    = {| shared := c + Z.of_nat m; pool := done |}
    /\ forallb is_finished done = true.
Proof.
  revert c pre. induction m as [| m IH]; intros c pre Hpre.
  - exists pre. cbn [seq flat_map run replicate]. rewrite app_nil_r.
    split; [f_equal; lia | exact Hpre].
  - cbn [seq flat_map replicate].
    rewrite run_app, run_one_call.
    destruct (IH (c + 1) (pre ++ [Finished (c + 1)])%list) as (done & Hrun & Hdone).
    { rewrite forallb_app, Hpre. reflexivity. }
    rewrite length_app in Hrun. cbn [length] in Hrun.
    rewrite Nat.add_1_r, <- app_assoc in Hrun. cbn [app] in Hrun.
    exists done. split; [| exact Hdone].
    rewrite Hrun. f_equal. lia.
Qed.

Lemma one_after_another_counts (K : nat) (c : Z) :
  shared (run (one_after_another K) (fire c K)) = c + Z.of_nat K
  /\ all_finished (run (one_after_another K) (fire c K)) = true.
Proof.
  destruct (run_one_after_another K c [] eq_refl) as (done & Hrun & Hdone).
  cbn [length app] in Hrun. unfold one_after_another, fire, all_finished.
  rewrite Hrun. now split.
Qed.

(** The three accesses are the ones of the program: the read and the write
    of line 58 and the read of line 59. *)
Lemma access_follows_the_code (env : Env) (st : State) (v : Z) :
  (fst (load_frame_count env st) = Return (frame_count (camera st))
   /\ access (frame_count (camera st)) Start
      = (frame_count (camera (snd (load_frame_count env st))),
         Loaded (frame_count (camera st))))
  /\ access (frame_count (camera st)) (Loaded v)
     = (frame_count (camera (snd (store_frame_count (v + 1) env st))), Stored)
  /\ access (frame_count (camera st)) Stored
     = (frame_count (camera (snd (load_frame_count env st))),
        Finished (frame_count (camera st))).
Proof. repeat split. Qed.

(** A call scheduled without interruption does to the counter what
    [create_test_image] does when it runs alone. *)
Lemma one_call_alone (st : State) :
  run [0; 0; 0]%nat (fire (frame_count (camera st)) 1)
  = {| shared := frame_count (camera (snd (create_test_image healthy st)));
       pool := [Finished (frame_count (camera (snd (create_test_image healthy st))))] |}.
Proof. rewrite create_test_image_counter. reflexivity. Qed.

(** C2, as the code has it.  The counter is not guarded: the increment is a
    read followed by a write, and calls may interleave between the two.
    When [K] calls fired at count [c] have all finished, the counter is at
    most [c + K] (no increment counts twice) and, if [K >= 1], at least
    [c + 1]; it is [c + K] when the calls run one after another. *)
Theorem unguarded_counter_bounds (K : nat) (c : Z) (schedule : list nat) :
  all_finished (run schedule (fire c K)) = true ->
  c + Z.min 1 (Z.of_nat K) <= shared (run schedule (fire c K)) <= c + Z.of_nat K
  /\ shared (run (one_after_another K) (fire c K)) = c + Z.of_nat K
  /\ all_finished (run (one_after_another K) (fire c K)) = true.
Proof.
  intros Hfin. split; [| apply one_after_another_counts].
  destruct (in_flight_run c schedule (fire c K) (in_flight_fire c K))
    as (Hc & Hpos & _).
  unfold all_finished in Hfin. apply written_all_finished in Hfin.
  rewrite run_length in Hfin. unfold fire in Hfin at 2. cbn [pool] in Hfin.
  rewrite length_replicate in Hfin. rewrite Hfin in Hc, Hpos.
  destruct K as [| K]; [cbn in *; lia |].
  assert (Z.min 1 (Z.of_nat (S K)) = 1) as -> by lia. lia.
Qed.

Lemma unguarded_counter_bounds_witness :
  all_finished (run [0; 1; 2; 0; 1; 2; 0; 1; 2]%nat (fire 0 3)) = true
  /\ 0 + Z.min 1 (Z.of_nat 3)
     <= shared (run [0; 1; 2; 0; 1; 2; 0; 1; 2]%nat (fire 0 3))
     <= 0 + Z.of_nat 3.
Proof.
  assert (H : all_finished (run [0; 1; 2; 0; 1; 2; 0; 1; 2]%nat (fire 0 3)) = true)
    by reflexivity.
  exact (conj H (proj1 (unguarded_counter_bounds 3 0 _ H))).
Defined.

(** [K] finished calls need not leave the counter at [K]: when two calls
    both read the counter before either writes, both finish and one
    increment is lost. *)
Lemma two_calls_lose_an_increment :
  ~ (forall (K : nat) (schedule : list nat),
       all_finished (run schedule (fire 0 K)) = true ->
       shared (run schedule (fire 0 K)) = Z.of_nat K).
Proof.
  intros H. specialize (H 2%nat [0; 1; 0; 1; 0; 1]%nat eq_refl).
  discriminate H.
Qed.

Example interleaved_run :
  run [0; 1; 0; 1; 0; 1]%nat (fire 0 2)
  = {| shared := 1; pool := [Finished 1; Finished 1] |}.
Proof. reflexivity. Qed.

(** Under interleaving the counter can even go back: the third call has
    brought it to 2 when the first writes its stale sum. *)
Example counter_goes_back :
  shared (run [0; 1; 1; 2; 2]%nat (fire 0 3)) = 2
  /\ shared (run [0; 1; 1; 2; 2; 0]%nat (fire 0 3)) = 1.
Proof. split; reflexivity. Qed.

(** * Further properties *)

(** ** The answer to a snapshot request *)

Lemma create_test_image_canvas (env : Env) (st : State) (buf : BytesIO) (st' : State) :
  create_test_image env st = (Return buf, st') ->
  exists img,
    buf = {| getvalue := Encoded "JPEG" img; tell := AtStart |}
    /\ mode img = "RGB" /\ size img = (640, 480) /\ background img = Named "darkgray".
Proof.
  destruct st as [[c] [tp k] [rd a]].
  unfold_create.
  env_cases env; intros H; try discriminate H.
  all: injection H as <- <-.
  all: eexists; repeat split.
Qed.

(** X1. A ['/snapshot'] request that is answered with 200 carries the
    content type [image/jpeg] and a body that is not empty: the JPEG
    encoding of a 640x480 RGB image on a dark gray ground, read from the
    start of the buffer. *)
Theorem snapshot_success_response (env : Env) (st : State) :
  succeeded (fst (handle_request "/snapshot" env st)) = true ->
  exists img,
    fst (handle_request "/snapshot" env st)
    = {| status_code := 200; mimetype := "image/jpeg";
         body := RawBody (Encoded "JPEG" img) |}
    /\ fst (create_test_image env st)
       = Return {| getvalue := Encoded "JPEG" img; tell := AtStart |}
    /\ mode img = "RGB" /\ size img = (640, 480)
    /\ background img = Named "darkgray".
Proof.
  intros H. rewrite snapshot_succeeded in H. apply andb_prop in H as [Hr Hs].
  apply negb_true_iff in Hs.
  destruct (create_test_image env st) as [[buf | e] st1] eqn:Hc; [| discriminate Hr].
  destruct (create_test_image_canvas _ _ _ _ Hc) as (img & -> & Hm & Hsz & Hbg).
  exists img. split; [| now repeat split].
  unfold handle_request. cbn [url_map String.eqb Ascii.eqb Bool.eqb].
  unfold snapshot, bind. rewrite Hc.
  unfold flask_send_file, bind, lib, ret. rewrite Hs. reflexivity.
Qed.

Lemma snapshot_success_response_witness :
  succeeded (fst (handle_request "/snapshot" healthy sample_state)) = true
  /\ exists img,
       fst (handle_request "/snapshot" healthy sample_state)
       = {| status_code := 200; mimetype := "image/jpeg";
            body := RawBody (Encoded "JPEG" img) |}
       /\ fst (create_test_image healthy sample_state)
          = Return {| getvalue := Encoded "JPEG" img; tell := AtStart |}
       /\ mode img = "RGB" /\ size img = (640, 480)
       /\ background img = Named "darkgray".
Proof.
  assert (H : succeeded (fst (handle_request "/snapshot" healthy sample_state)) = true)
    by (vm_compute; reflexivity).
  exact (conj H (snapshot_success_response _ _ H)).
Defined.

(** ** Routes and status codes *)


Example near_miss_paths :
  map (fun p => status_code (fst (handle_request p healthy sample_state)))
      ["/snapshot/"; "/Status"; "snapshot"; EmptyString; "/status"; "/"]
  = [404; 404; 404; 404; 200; 200].
Proof. vm_compute. reflexivity. Qed.

(** X3. An unknown path and the home page leave the whole state as it is;
    ['/status'] does nothing but read the clock once. *)
Theorem requests_that_leave_the_state (path : string) (env : Env) (st : State) :
  String.eqb path "/snapshot" = false ->
  snd (handle_request path env st) =
  if String.eqb path "/status"
  then {| camera := camera st;
          random_state := random_state st;
          wall_clock := {| readings := readings (wall_clock st);
                           asked := S (asked (wall_clock st)) |} |}
  else st.
Proof.
  intros Hp. unfold handle_request, url_map. rewrite Hp.
  destruct (String.eqb path "/") eqn:H1.
  { apply String.eqb_eq in H1. subst path. reflexivity. }
  destruct (String.eqb path "/status"); reflexivity.
Qed.

Lemma requests_that_leave_the_state_witness :
  String.eqb "/favicon.ico" "/snapshot" = false
  /\ snd (handle_request "/favicon.ico" fonts_unavailable sample_state) = sample_state.
Proof.
  assert (H : String.eqb "/favicon.ico" "/snapshot" = false) by reflexivity.
  exact (conj H (requests_that_leave_the_state "/favicon.ico" fonts_unavailable
                   sample_state H)).
Defined.

(** ** What one call uses up *)


(** ** How a call fails *)



(** ** The frames of a lifetime differ *)

Lemma to_int_not_nil (n : Z) :
  Z.to_int n <> Decimal.Pos Decimal.Nil /\ Z.to_int n <> Decimal.Neg Decimal.Nil.
Proof.
  destruct n as [| p | p]; cbn; split; try discriminate.
  - intros [= H]. now apply DecimalPos.Unsigned.to_uint_nonnil in H.
  - intros [= H]. now apply DecimalPos.Unsigned.to_uint_nonnil in H.
Qed.

(** [int(str(n)) == n]. *)
Lemma int_of_str_of_int (n : Z) : int_of_str (str_of_int n) = Some n.
Proof.
  unfold int_of_str, str_of_int.
  destruct (to_int_not_nil n) as [H1 H2].
  rewrite NilZero.isi by assumption. cbn. now rewrite DecimalZ.of_to.
Qed.

Lemma str_of_int_inj (n m : Z) : str_of_int n = str_of_int m -> n = m.
Proof.
  intros H. apply (f_equal int_of_str) in H.
  rewrite !int_of_str_of_int in H. now injection H.
Qed.

Lemma frame_label_of_call (env : Env) (st : State) (buf : BytesIO) (st' : State) :
  create_test_image env st = (Return buf, st') ->
  frame_label buf = Some ("Frame: " ++ str_of_int (frame_count (camera st')))
  /\ frame_count (camera st') = frame_count (camera st) + 1.
Proof.
  intros H. destruct (create_test_image_texts _ _ _ _ H) as (img & Hd & Ht & Hc).
  split; [| exact Hc]. unfold frame_label. rewrite Hd, Ht. reflexivity.
Qed.

Lemma create_test_image_pair (env : Env) (st : State) :
  create_test_image env st
  = (fst (create_test_image env st), snd (create_test_image env st)).
Proof. now destruct (create_test_image env st). Qed.

Lemma create_test_image_monotone (env : Env) (st : State) :
  frame_count (camera st) <= frame_count (camera (snd (create_test_image env st))).
Proof.
  rewrite create_test_image_counter. destruct (reaches_increment env); lia.
Qed.

(** A frame returned by a later call carries a number above the counter at
    the start. *)
Lemma calls_label_above (envs : list Env) (st : State) (j : nat) (bj : BytesIO) :
  fst (calls envs st) !! j = Some (Return bj) ->
  exists n,
    frame_count (camera st) < n
    /\ frame_label bj = Some ("Frame: " ++ str_of_int n).
Proof.
  revert st j. induction envs as [| env envs IH]; intros st j H.
  - cbn in H. discriminate H.
  - rewrite calls_cons in H. cbn [fst] in H. destruct j as [| j]; cbn in H.
    + injection H as H.
      pose proof (create_test_image_pair env st) as Hp. rewrite H in Hp.
      destruct (frame_label_of_call _ _ _ _ Hp) as [Hl Hc].
      eexists. split; [| exact Hl]. lia.
    + destruct (IH _ _ H) as (n & Hn & Hl). exists n. split; [| exact Hl].
      pose proof (create_test_image_monotone env st). lia.
Qed.

(** X6. Of the frames that a sequence of calls returns, a later one always
    carries a larger frame number than an earlier one, whatever failed in
    between; so no two frames of one server lifetime are the same image. *)
Theorem frames_are_numbered_apart
    (envs : list Env) (st : State) (i j : nat) (bi bj : BytesIO) :
  (i < j)%nat ->
  fst (calls envs st) !! i = Some (Return bi) ->
  fst (calls envs st) !! j = Some (Return bj) ->
  exists ni nj,
    frame_label bi = Some ("Frame: " ++ str_of_int ni)
    /\ frame_label bj = Some ("Frame: " ++ str_of_int nj)
    /\ frame_count (camera st) < ni < nj
    /\ bi <> bj.
Proof.
  revert st i j. induction envs as [| env envs IH]; intros st i j Hij Hi Hj.
  - cbn in Hi. discriminate Hi.
  - rewrite calls_cons in Hi, Hj. cbn [fst] in Hi, Hj.
    destruct j as [| j]; [lia |]. cbn in Hj.
    destruct i as [| i]; cbn in Hi.
    + injection Hi as Hi.
      pose proof (create_test_image_pair env st) as Hp. rewrite Hi in Hp.
      destruct (frame_label_of_call _ _ _ _ Hp) as [Hl Hc].
      destruct (calls_label_above _ _ _ _ Hj) as (nj & Hnj & Hlj).
      exists (frame_count (camera (snd (create_test_image env st)))), nj.
      split; [exact Hl |]. split; [exact Hlj |]. split; [lia |].
      intros ->. rewrite Hl in Hlj. injection Hlj as Hs.
      apply str_of_int_inj in Hs. lia.
    + destruct (IH _ i j ltac:(lia) Hi Hj) as (ni & nj & Hli & Hlj & Hn & Hne).
      exists ni, nj. split; [exact Hli |]. split; [exact Hlj |].
      split; [| exact Hne].
      pose proof (create_test_image_monotone env st). lia.
Qed.

Lemma frames_are_numbered_apart_witness :
  (0 < 2)%nat
  /\ fst (calls [healthy; encoder_missing; healthy] sample_state) !! 0%nat
     = Some (Return sample_frame)
  /\ exists bj,
       fst (calls [healthy; encoder_missing; healthy] sample_state) !! 2%nat
       = Some (Return bj)
       /\ exists ni nj,
            frame_label sample_frame = Some ("Frame: " ++ str_of_int ni)
            /\ frame_label bj = Some ("Frame: " ++ str_of_int nj)
            /\ frame_count (camera sample_state) < ni < nj
            /\ sample_frame <> bj.
Proof.
  assert (H0 : (0 < 2)%nat) by lia.
  assert (H1 : fst (calls [healthy; encoder_missing; healthy] sample_state) !! 0%nat
               = Some (Return sample_frame)) by (vm_compute; reflexivity).
  destruct (fst (calls [healthy; encoder_missing; healthy] sample_state) !! 2%nat)
    as [[bj | e] |] eqn:H2; try (vm_compute in H2; discriminate H2).
  split; [exact H0 |]. split; [exact H1 |].
  exists bj. split; [reflexivity |].
  exact (frames_are_numbered_apart _ _ _ _ _ _ H0 H1 H2).
Defined.

Example label_after_a_failed_call :
  map (fun o => match o with Return b => frame_label b | Raised _ => None end)
      (fst (calls [healthy; encoder_missing; healthy] sample_state))
  = [Some "Frame: 1"; None; Some "Frame: 3"].
Proof. vm_compute. reflexivity. Qed.

(** ** The random source decides the rectangles *)

(** X7. Two calls that start from the same state of the random source
    draw the same three rectangles and leave the random source in the same
    state, whatever the counter, the clock and the font are: a repeated
    seed repeats the layout. *)
Theorem rectangles_follow_the_random_source
    (env1 env2 : Env) (st1 st2 : State) (b1 b2 : BytesIO) (st1' st2' : State) :
  random_state st1 = random_state st2 ->
  create_test_image env1 st1 = (Return b1, st1') ->
  create_test_image env2 st2 = (Return b2, st2') ->
  exists img1 img2,
    decoded b1 = Some img1 /\ decoded b2 = Some img2
    /\ rectangles (drawn img1) = rectangles (drawn img2)
    /\ random_state st1' = random_state st2'.
Proof.
  destruct st1 as [[c1] [tp1 k1] [rd1 a1]], st2 as [[c2] [tp2 k2] [rd2 a2]].
  cbn [random_state]. intros Hr. injection Hr as -> ->.
  unfold_create.
  env_cases env1; intros H1; try discriminate H1.
  all: env_cases env2; intros H2; try discriminate H2.
  all: injection H1 as <- <-; injection H2 as <- <-.
  all: do 2 eexists; repeat split.
Qed.

Lemma rectangles_follow_the_random_source_witness :
  random_state sample_state = random_state reseeded_state
  /\ create_test_image healthy sample_state = (Return sample_frame, sample_state_after)
  /\ create_test_image fonts_tolerated reseeded_state
     = (Return reseeded_frame, reseeded_state_after)
  /\ exists img1 img2,
       decoded sample_frame = Some img1 /\ decoded reseeded_frame = Some img2
       /\ rectangles (drawn img1) = rectangles (drawn img2)
       /\ random_state sample_state_after = random_state reseeded_state_after.
Proof.
  assert (H0 : random_state sample_state = random_state reseeded_state)
    by reflexivity.
  assert (H1 : create_test_image healthy sample_state
               = (Return sample_frame, sample_state_after))
    by (vm_compute; reflexivity).
  assert (H2 : create_test_image fonts_tolerated reseeded_state
               = (Return reseeded_frame, reseeded_state_after))
    by (vm_compute; reflexivity).
  exact (conj H0 (conj H1 (conj H2
           (rectangles_follow_the_random_source _ _ _ _ _ _ _ _ H0 H1 H2)))).
Defined.

(** ** The layout of a frame *)

(** X8. Every returned frame is drawn in the same order: the grid of 13
    vertical lines at x = 0, 50, ..., 600 and 10 horizontal lines at
    y = 0, 50, ..., 450 (gray, one pixel wide, across the whole canvas, none
    on the right or bottom edge), then the three rectangles, then the three
    text lines, the REC circle and its label.  So the overlays are painted
    over the rectangles, and the rectangles over the grid. *)
Theorem frame_layout (env : Env) (st : State) (buf : BytesIO) (st' : State) :
  create_test_image env st = (Return buf, st') ->
  exists img,
    decoded buf = Some img
    /\ lines (drawn img)
       = (map (fun x => ([(x, 0); (x, 480)], Named "gray", 1)) (range 0 640 50)
          ++ map (fun y => ([(0, y); (640, y)], Named "gray", 1)) (range 0 480 50))%list
    /\ map kind_of (drawn img)
       = (repeat KLine 23 ++ repeat KRectangle 3
          ++ [KText; KText; KText; KEllipse; KText])%list
    /\ In (Ellipse (590, 10, 610, 30) (Named "red")) (drawn img).
Proof.
  destruct st as [[c] [tp k] [rd a]].
  unfold_create.
  env_cases env; intros H; try discriminate H.
  all: injection H as <- <-.
  all: eexists; split; [reflexivity |]; split; [reflexivity |].
  all: split; [reflexivity |].
  all: cbn [drawn In]; repeat (first [left; reflexivity | right]).
Qed.

Lemma frame_layout_witness :
  create_test_image healthy sample_state = (Return sample_frame, sample_state_after)
  /\ exists img,
       decoded sample_frame = Some img
       /\ lines (drawn img)
          = (map (fun x => ([(x, 0); (x, 480)], Named "gray", 1)) (range 0 640 50)
             ++ map (fun y => ([(0, y); (640, y)], Named "gray", 1)) (range 0 480 50))%list
       /\ map kind_of (drawn img)
          = (repeat KLine 23 ++ repeat KRectangle 3
             ++ [KText; KText; KText; KEllipse; KText])%list
       /\ In (Ellipse (590, 10, 610, 30) (Named "red")) (drawn img).
Proof.
  assert (H : create_test_image healthy sample_state
              = (Return sample_frame, sample_state_after))
    by (vm_compute; reflexivity).
  exact (conj H (frame_layout _ _ _ _ H)).
Defined.

Ltac pick_bounds :=
  repeat match goal with
         | |- context [pick ?a ?b ?r] =>
             let H := fresh "Hpick" in
             pose proof (pick_range a b r ltac:(lia)) as H;
             generalize dependent (pick a b r); intros
         end.

(** X9. Every point that a drawing call of a returned frame names (the
    ends of the grid lines, the corners of the rectangles and of the box of
    the REC circle, the places of the texts) lies on the canvas:
    [0 <= x <= 640] and [0 <= y <= 480]. *)
Theorem frame_stays_on_canvas (env : Env) (st : State) (buf : BytesIO) (st' : State) :
  create_test_image env st = (Return buf, st') ->
  exists img,
    decoded buf = Some img
    /\ size img = (640, 480)
    /\ Forall (fun op => Forall on_canvas (op_points op)) (drawn img).
Proof.
  destruct st as [[c] [tp k] [rd a]].
  unfold_create.
  env_cases env; intros H; try discriminate H.
  all: injection H as <- <-.
  all: eexists; split; [reflexivity |]; split; [reflexivity |].
  all: cbn [drawn]; unfold on_canvas.
  all: repeat (constructor; [cbn [op_points];
                             repeat (constructor; [cbn [fst snd]; pick_bounds; lia |]);
                             constructor |]).
  all: constructor.
Qed.

Lemma frame_stays_on_canvas_witness :
  create_test_image healthy sample_state = (Return sample_frame, sample_state_after)
  /\ exists img,
       decoded sample_frame = Some img
       /\ size img = (640, 480)
       /\ Forall (fun op => Forall on_canvas (op_points op)) (drawn img).
Proof.
  assert (H : create_test_image healthy sample_state
              = (Return sample_frame, sample_state_after))
    by (vm_compute; reflexivity).
  exact (conj H (frame_stays_on_canvas _ _ _ _ H)).
Defined.

(** ** Snapshots and status together *)

(** X10. The number on a frame is the number that ['/status'] reports
    right after the snapshot request that made it, also when [send_file]
    failed to deliver that frame. *)
Theorem status_agrees_with_frame_label
    (env env' : Env) (st : State) (buf : BytesIO) :
  fst (create_test_image env st) = Return buf ->
  exists n,
    frame_label buf = Some ("Frame: " ++ str_of_int n)
    /\ status_frame_count env' (snd (handle_request "/snapshot" env st))
       = Some (JInt n).
Proof.
  intros H. pose proof (create_test_image_pair env st) as Hp. rewrite H in Hp.
  destruct (frame_label_of_call _ _ _ _ Hp) as [Hl _].
  exists (frame_count (camera (snd (create_test_image env st)))).
  split; [exact Hl |]. now rewrite handle_snapshot_state.
Qed.

Lemma status_agrees_with_frame_label_witness :
  fst (create_test_image healthy sample_state) = Return sample_frame
  /\ exists n,
       frame_label sample_frame = Some ("Frame: " ++ str_of_int n)
       /\ status_frame_count fonts_unavailable
            (snd (handle_request "/snapshot" healthy sample_state))
          = Some (JInt n).
Proof.
  assert (H : fst (create_test_image healthy sample_state) = Return sample_frame)
    by (vm_compute; reflexivity).
  exact (conj H (status_agrees_with_frame_label healthy fonts_unavailable _ _ H)).
Defined.

Lemma snapshot_responses_length (reqs : Lifetime) (st : State) :
  length (snapshot_responses reqs (fst (serve reqs st)))
  = length (snapshot_requests reqs).
Proof.
  revert st. induction reqs as [| [path env] reqs IH]; intros st; [reflexivity |].
  rewrite serve_cons. cbn [fst snapshot_responses].
  unfold snapshot_requests. cbn [List.filter fst].
  destruct (String.eqb path "/snapshot"); cbn [length]; [f_equal |]; apply IH.
Qed.

Lemma filter_all_length {A} (f : A -> bool) (l : list A) :
  forallb f l = true -> length (List.filter f l) = length l.
Proof.
  induction l as [| x l IH]; [reflexivity |].
  cbn [forallb List.filter]. intros H. apply andb_prop in H as [-> H].
  cbn [length]. now rewrite IH.
Qed.

(** X11. In a lifetime whose ['/snapshot'] requests were all answered
    with 200, ['/status'] reports exactly the number of ['/snapshot']
    requests made so far, however they were mixed with other requests. *)
Theorem status_counts_snapshots_when_all_succeed
    (reqs : Lifetime) (env : Env) (r : RandomSource) (c : Clock) :
  forallb succeeded (snapshot_responses reqs (fst (serve reqs (startup r c)))) = true ->
  status_frame_count env (snd (serve reqs (startup r c)))
  = Some (JInt (Z.of_nat (length (snapshot_requests reqs)))).
Proof.
  intros H.
  pose proof (succeeded_le_incrementing reqs (startup r c)) as H1.
  pose proof (incrementing_le_snapshots reqs) as H2.
  rewrite (filter_all_length _ _ H), snapshot_responses_length in H1.
  unfold status_frame_count, handle_request.
  cbn [url_map String.eqb Ascii.eqb Bool.eqb].
  rewrite status_eq. cbn [fst make_response body dict_get String.eqb Ascii.eqb Bool.eqb].
  rewrite serve_counter. cbn [startup camera frame_count __init__].
  do 2 f_equal. lia.
Qed.

Lemma status_counts_snapshots_when_all_succeed_witness :
  forallb succeeded
    (snapshot_responses mixed_requests
       (fst (serve mixed_requests (startup (constant_random 7) (stopped_clock noon)))))
  = true
  /\ status_frame_count healthy
       (snd (serve mixed_requests (startup (constant_random 7) (stopped_clock noon))))
     = Some (JInt 2).
Proof.
  assert (H : forallb succeeded
                (snapshot_responses mixed_requests
                   (fst (serve mixed_requests
                           (startup (constant_random 7) (stopped_clock noon)))))
              = true) by (vm_compute; reflexivity).
  exact (conj H (status_counts_snapshots_when_all_succeed mixed_requests healthy _ _ H)).
Defined.

(** ** Labels of calls in flight at once *)

Lemma written_le_length (l : list Pc) : written l <= Z.of_nat (length l).
Proof.
  induction l as [| pc l IH]; [cbn; lia |].
  cbn [written length]. destruct pc; lia.
Qed.

Lemma labels_between_weaken (lo hi hi' : Z) (ts : list Pc) :
  hi <= hi' -> labels_between lo hi ts -> labels_between lo hi' ts.
Proof.
  intros Hh. unfold labels_between. apply List.Forall_impl.
  intros [] ?; try exact I. lia.
Qed.

Lemma labels_step (c0 : Z) (i : nat) (cf : Conf) :
  in_flight c0 cf ->
  labels_between (c0 + 1) (c0 + written (pool cf)) (pool cf) ->
  labels_between (c0 + 1) (c0 + written (pool (step i cf))) (pool (step i cf)).
Proof.
  intros (Hc & Hpos & _) Hl. unfold step.
  destruct (pool cf !! i) as [pc |] eqn:Hi; [| exact Hl].
  destruct (lookup_insert_split (pool cf) i pc (snd (access (shared cf) pc)) Hi)
    as (l1 & l2 & Heq & Hins).
  destruct (access (shared cf) pc) as [c' pc'] eqn:Hacc. cbn [snd] in Hins.
  cbn [pool]. rewrite Hins. rewrite Heq in Hc, Hpos, Hl. clear Heq Hins Hi.
  unfold labels_between in *.
  rewrite written_app in *. apply Forall_app in Hl as [Hl1 Hl2].
  apply Forall_cons in Hl2 as [Hpc Hl2].
  pose proof (written_nonneg l1). pose proof (written_nonneg l2).
  destruct pc; cbn [access] in Hacc; injection Hacc as <- <-; cbn [written] in *.
  all: apply Forall_app; split; [| constructor; [try exact I; try lia |]].
  all: try (revert Hl1; apply List.Forall_impl; intros [] ?; try exact I; lia).
  all: revert Hl2; apply List.Forall_impl; intros [] ?; try exact I; lia.
Qed.

Lemma labels_run (c0 : Z) (schedule : list nat) (cf : Conf) :
  in_flight c0 cf ->
  labels_between (c0 + 1) (c0 + written (pool cf)) (pool cf) ->
  labels_between (c0 + 1) (c0 + written (pool (run schedule cf)))
    (pool (run schedule cf)).
Proof.
  revert cf. induction schedule as [| i rest IH]; intros cf Hin Hl; [exact Hl |].
  cbn [run]. apply IH; [now apply in_flight_step | now apply labels_step].
Qed.

(** X12. However [K] calls fired at count [c] are interleaved, and
    whether or not all of them are through, the number on the label of
    every finished call is at least [c + 1] and at most [c + K]: a label
    never shows the count before the calls, nor more than were made.  (Two
    labels can show the same number, see [interleaved_run].) *)
Theorem labels_of_interleaved_calls (K : nat) (c : Z) (schedule : list nat) :
  labels_between (c + 1) (c + Z.of_nat K) (pool (run schedule (fire c K))).
Proof.
  apply labels_between_weaken with (hi := c + written (pool (run schedule (fire c K)))).
  - pose proof (written_le_length (pool (run schedule (fire c K)))) as H.
    rewrite run_length in H. unfold fire in H at 2. cbn [pool] in H.
    rewrite length_replicate in H. lia.
  - apply labels_run; [apply in_flight_fire |].
    unfold fire, labels_between. cbn [pool].
    induction K as [| K IH]; cbn [replicate]; constructor; [exact I | exact IH].
Qed.

Example interleaved_labels :
  pool (run [0; 0; 1; 0; 2; 1; 2; 1; 2]%nat (fire 10 3))
  = [Finished 11; Finished 12; Finished 12].
Proof. reflexivity. Qed.

Lemma seq_labels (c : Z) (m : nat) :
  map (fun i : nat => Finished (c + Z.of_nat i)) (seq 1 (S m))
  = Finished (c + 1)
      :: map (fun i : nat => Finished (c + 1 + Z.of_nat i)) (seq 1 m).
Proof.
  cbn [seq map]. f_equal. rewrite <- seq_shift, map_map.
  apply map_ext. intros i. f_equal. lia.
Qed.

Lemma run_one_after_another_labels (m : nat) (c : Z) (pre : list Pc) :
  run (flat_map (fun i => [i; i; i]) (seq (length pre) m))
      {| shared := c; pool := (pre ++ replicate m Start)%list |}
  = {| shared := c + Z.of_nat m;
       pool := (pre ++ map (fun i : nat => Finished (c + Z.of_nat i)) (seq 1 m))%list |}.
Proof.
  revert c pre. induction m as [| m IH]; intros c pre.
  - cbn [seq flat_map run replicate map]. f_equal. lia.
  - rewrite seq_labels. cbn [seq flat_map replicate].
    rewrite run_app, run_one_call.
    specialize (IH (c + 1) (pre ++ [Finished (c + 1)])%list).
    rewrite length_app in IH. cbn [length] in IH.
    rewrite Nat.add_1_r, <- !app_assoc in IH. cbn [app] in IH.
    rewrite IH. f_equal. lia.
Qed.

(** X13. When [K] calls fired at count [c] run one after another, the
    counter ends at [c + K] and the calls carry the labels [c + 1], ...,
    [c + K] in the order in which they ran, each number once. *)
Theorem labels_of_calls_in_sequence (K : nat) (c : Z) :
  run (one_after_another K) (fire c K)
  = {| shared := c + Z.of_nat K;
       pool := map (fun i : nat => Finished (c + Z.of_nat i)) (seq 1 K) |}.
Proof. apply (run_one_after_another_labels K c []). Qed.

(** ** Witnesses for the font and the choice of rectangles *)

Lemma text_calls_are_always_made_witness :
  create_test_image fonts_tolerated reseeded_state
  = (Return reseeded_frame, reseeded_state_after)
  /\ exists img,
       decoded reseeded_frame = Some img
       /\ text_fonts (drawn img)
          = [font_used fonts_tolerated; font_used fonts_tolerated;
             font_used fonts_tolerated; font_used fonts_tolerated].
Proof.
  assert (H : create_test_image fonts_tolerated reseeded_state
              = (Return reseeded_frame, reseeded_state_after))
    by (vm_compute; reflexivity).
  exact (conj H (text_calls_are_always_made _ _ _ _ H)).
Defined.

Lemma any_three_rectangles_can_be_drawn_witness :
  drawable far_corner /\ drawable near_corner /\ drawable in_between
  /\ exists buf st' img,
       create_test_image healthy
         {| camera := __init__;
            random_state := random_for [far_corner; near_corner; in_between];
            wall_clock := stopped_clock noon |}
       = (Return buf, st')
       /\ decoded buf = Some img
       /\ rectangles (drawn img) = map rectangle_of [far_corner; near_corner; in_between].
Proof.
  assert (H1 : drawable far_corner) by (cbn; lia).
  assert (H2 : drawable near_corner) by (cbn; lia).
  assert (H3 : drawable in_between) by (cbn; lia).
  exact (conj H1 (conj H2 (conj H3
           (any_three_rectangles_can_be_drawn far_corner near_corner in_between
              __init__ (stopped_clock noon) H1 H2 H3)))).
Defined.

(** A rectangle can reach the right and bottom bounds of the canvas. *)
Example far_corner_rectangle :
  rectangle_of far_corner = ((540, 380, 640, 480), RGB 255 255 255, Named "white").
Proof. reflexivity. Qed.
